(** * MCPServer: protocol dispatch, tool handlers and transports

    A shallow embedding of the TypeScript servers of the repository:

    - [Simple]      src/simple-server.ts (dependency-free JSON-RPC server)
    - [Sdk]         index.ts (SDK-based server: echo, get_current_time, calculate)
    - [Standalone]  src/standalone-profile-server.ts (get_profile over stdio/HTTP)
    - [Enhanced]    src/enhanced-profile-server.ts (SDK profile server, HTTP)
    - [Carousel]    the medicine carousel HTTP server (OAuth token middleware)
                    and src/getUserToken.ts

    JavaScript strings are represented by their UTF-8 bytes ([string]);
    values that cross the wire are JSON values ([json]); a property that is
    absent (JavaScript [undefined]) is [None].  Whatever belongs to the
    JavaScript engine rather than to the repository (eval, the Function
    constructor, JSON.parse, number formatting, the clock) is a field of the
    class [Runtime]; a reference instance for a small fragment is provided so
    that every statement can be run on concrete inputs. *)

From Stdlib Require Import String Ascii List ZArith QArith Bool Lia.
Import ListNotations.
Open Scope string_scope.
Open Scope Z_scope.

(** ** Completions: a value, or a thrown exception *)

Inductive ErrorCode : Type :=
| ParseError | InvalidRequest | MethodNotFound | InvalidParams | InternalError.

(** The JSON-RPC numbers behind the SDK's [ErrorCode] enum. *)
Definition code_number (c : ErrorCode) : Z :=
  match c with
  | ParseError => -32700
  | InvalidRequest => -32600
  | MethodNotFound => -32601
  | InvalidParams => -32602
  | InternalError => -32603
  end.

(** What a JavaScript [throw] carries in these servers: a plain [Error]
    (TypeError, SyntaxError, ...) by its name and message, or the SDK's
    [McpError] by the code and the text it is constructed with. *)
Inductive Thrown : Type :=
| JsError (name message : string)
| McpError (code : ErrorCode) (message : string).

Inductive Completion (A : Type) : Type :=
| Normal (a : A)
| Throw (t : Thrown).
Arguments Normal {A} a.
Arguments Throw {A} t.

Definition bind {A B} (c : Completion A) (k : A -> Completion B) : Completion B :=
  match c with
  | Normal a => k a
  | Throw t => Throw t
  end.

(** [try { c } catch (error) { h error }] *)
Definition try_catch {A} (c : Completion A) (h : Thrown -> Completion A) : Completion A :=
  match c with
  | Normal a => Normal a
  | Throw t => h t
  end.

Notation "x <- c ;; k" := (bind c (fun x => k))
  (at level 61, c at next level, right associativity).

Definition TypeError (m : string) : Thrown := JsError "TypeError" m.
Definition PlainError (m : string) : Thrown := JsError "Error" m.

(** ** Strings *)

Definition byte (n : nat) : ascii := ascii_of_nat n.
Definition bytes (l : list nat) : string := string_of_list_ascii (map byte l).

Definition LF : ascii := byte 10.

Fixpoint strip_prefix (p s : string) : option string :=
  match p, s with
  | EmptyString, _ => Some s
  | String a p', String b s' => if Ascii.eqb a b then strip_prefix p' s' else None
  | String _ _, EmptyString => None
  end.

(** The white space of ECMAScript ([\s] of a regular expression and what
    [String.prototype.trim] removes), each character by its UTF-8 bytes:
    TAB, LF, VT, FF, CR, SPACE, U+00A0, U+1680, U+2000..U+200A, U+2028,
    U+2029, U+202F, U+205F, U+3000, U+FEFF. *)
Definition white_space : list string :=
  map bytes
    (List.app
       [[9]; [10]; [11]; [12]; [13]; [32]; [194; 160]; [225; 154; 128]]
       (List.app
          (map (fun k => [226; 128; k])
               [128; 129; 130; 131; 132; 133; 134; 135; 136; 137; 138])
          [[226; 128; 168]; [226; 128; 169]; [226; 128; 175]; [226; 129; 159];
           [227; 128; 128]; [239; 187; 191]]))%nat.

(** The first white-space character of [s], if [s] starts with one, and
    what follows it. *)
Fixpoint first_match (ws : list string) (s : string) : option (string * string) :=
  match ws with
  | [] => None
  | w :: ws' =>
      match strip_prefix w s with
      | Some rest => Some (w, rest)
      | None => first_match ws' s
      end
  end.

Definition leading_space (s : string) : option (string * string) :=
  first_match white_space s.
Arguments leading_space s : simpl never.

Definition is_digit (c : ascii) : bool :=
  let n := nat_of_ascii c in (48 <=? n)%nat && (n <=? 57)%nat.

(** The characters [0-9+\-*/().] of the calculator's allow-list (white
    space is handled by [leading_space]). *)
Definition is_arith_char (c : ascii) : bool :=
  is_digit c
  || existsb (Ascii.eqb c) ["+"; "-"; "*"; "/"; "("; ")"; "."]%char.

(** [s.replace(/[^0-9+\-*/().\s]/g, "")]: every character outside the
    allow-list is deleted.  [n] bounds the length of [s]. *)
Fixpoint sanitize_fuel (n : nat) (s : string) : string :=
  match n with
  | O => EmptyString
  | S n' =>
      match s with
      | EmptyString => EmptyString
      | String c rest =>
          match leading_space s with
          | Some (w, rest') => w ++ sanitize_fuel n' rest'
          | None =>
              if is_arith_char c then String c (sanitize_fuel n' rest)
              else sanitize_fuel n' rest
          end
      end
  end.

Definition sanitize (s : string) : string := sanitize_fuel (String.length s) s.

(** Every character of [s] is in the allow-list [0-9+\-*/().\s]. *)
Fixpoint only_allowed_fuel (n : nat) (s : string) : bool :=
  match n with
  | O => match s with EmptyString => true | _ => false end
  | S n' =>
      match s with
      | EmptyString => true
      | String c rest =>
          match leading_space s with
          | Some (_, rest') => only_allowed_fuel n' rest'
          | None => is_arith_char c && only_allowed_fuel n' rest
          end
      end
  end.

Definition only_allowed (s : string) : bool := only_allowed_fuel (String.length s) s.

(** [line.trim()] is the empty string: [s] is white space only. *)
Fixpoint all_space_fuel (n : nat) (s : string) : bool :=
  match n with
  | O => match s with EmptyString => true | _ => false end
  | S n' =>
      match s with
      | EmptyString => true
      | _ =>
          match leading_space s with
          | Some (_, rest) => all_space_fuel n' rest
          | None => false
          end
      end
  end.

Definition is_blank (s : string) : bool := all_space_fuel (String.length s) s.

(** [s.includes(p)] *)
Fixpoint includes (s p : string) : bool :=
  match strip_prefix p s with
  | Some _ => true
  | None =>
      match s with
      | EmptyString => false
      | String _ s' => includes s' p
      end
  end.

(** [s.split('\n')]: never empty; the last element is what follows the
    last newline. *)
Fixpoint split_lines (s : string) : list string :=
  match s with
  | EmptyString => [EmptyString]
  | String c rest =>
      if Ascii.eqb c LF then EmptyString :: split_lines rest
      else
        match split_lines rest with
        | [] => [String c EmptyString]
        | l :: ls => String c l :: ls
        end
  end.

(** Case-insensitive comparison of ASCII letters (the [i] flag on a
    pattern made of ASCII letters). *)
Definition to_lower (c : ascii) : ascii :=
  let n := nat_of_ascii c in
  if (65 <=? n)%nat && (n <=? 90)%nat then ascii_of_nat (n + 32) else c.

Fixpoint strip_prefix_ci (p s : string) : option string :=
  match p, s with
  | EmptyString, _ => Some s
  | String a p', String b s' =>
      if Ascii.eqb (to_lower a) (to_lower b) then strip_prefix_ci p' s' else None
  | String _ _, EmptyString => None
  end.

(** Greedy [\s*]: drop leading white space.  [n] bounds the length. *)
Fixpoint skip_space_fuel (n : nat) (s : string) : string :=
  match n with
  | O => s
  | S n' =>
      match leading_space s with
      | Some (_, rest) => skip_space_fuel n' rest
      | None => s
      end
  end.

Definition skip_space (s : string) : string := skip_space_fuel (String.length s) s.

(** Decimal rendering of a natural number / an integer. *)
Fixpoint digits_fuel (fuel n : nat) (acc : string) : string :=
  match fuel with
  | O => acc
  | S f =>
      let acc' := String (ascii_of_nat (48 + n mod 10)) acc in
      if (n <? 10)%nat then acc' else digits_fuel f (n / 10) acc'
  end.

Definition nat_to_string (n : nat) : string := digits_fuel (S n) n EmptyString.

Definition Z_to_string (z : Z) : string :=
  if z <? 0 then "-" ++ nat_to_string (Z.to_nat (- z)) else nat_to_string (Z.to_nat z).

(** [error.message]; the SDK's [McpError] builds its message from the code
    and the text it is constructed with. *)
Definition error_message (t : Thrown) : string :=
  match t with
  | JsError _ m => m
  | McpError c m => "MCP error " ++ Z_to_string (code_number c) ++ ": " ++ m
  end.

(** [String(error)]: the error's name, a colon and its message. *)
Definition String_of_error (t : Thrown) : string :=
  match t with
  | JsError n m => n ++ ": " ++ m
  | McpError _ _ => "McpError: " ++ error_message t
  end.

(** ** JavaScript numbers and JSON values *)

(** An IEEE-754 double by its exact value: a rational when finite. *)
Inductive JSNumber : Type :=
| Finite (q : Q)
| PosInfinity
| NegInfinity
| NaN.

#[warnings="-register-all"]
Inductive json : Type :=
| JNull
| JBool (b : bool)
| JNumber (n : JSNumber)
| JString (s : string)
| JArray (items : list json)
| JObject (fields : list (string * json)).

(** A JavaScript value that may be [undefined]. *)
Definition jsany : Type := option json.

(** Own property of an object built from JSON text; with duplicate keys the
    last one wins, as in [JSON.parse]. *)
Fixpoint lookup_field (k : string) (fields : list (string * json)) : jsany :=
  match fields with
  | [] => None
  | (k', v) :: rest =>
      match lookup_field k rest with
      | Some v' => Some v'
      | None => if String.eqb k k' then Some v else None
      end
  end.

(** [v.k] for one of the property names the servers read ([method],
    [params], [id], [name], [arguments], [uri], [text], [expression],
    [profileId]): none of them is defined on a prototype, so only an object's
    own fields can answer. *)
Definition get_prop (v : json) (k : string) : jsany :=
  match v with
  | JObject fields => lookup_field k fields
  | _ => None
  end.

(** [v?.k] *)
Definition opt_prop (v : jsany) (k : string) : jsany :=
  match v with
  | None | Some JNull => None
  | Some o => get_prop o k
  end.

(** [const { prop, ... } = src]: destructuring [undefined] or [null] throws
    a TypeError (the message is V8's). *)
Definition destructure (prop src : string) (v : jsany) : Completion json :=
  let msg kind :=
    "Cannot destructure property '" ++ prop ++ "' of '" ++ src ++ "' as it is "
      ++ kind ++ "." in
  match v with
  | None => Throw (TypeError (msg "undefined"))
  | Some JNull => Throw (TypeError (msg "null"))
  | Some o => Normal o
  end.

Definition is_zero (q : Q) : bool := (Qnum q =? 0)%Z.

(** ToBoolean *)
Definition truthy (v : jsany) : bool :=
  match v with
  | None | Some JNull => false
  | Some (JBool b) => b
  | Some (JNumber (Finite q)) => negb (is_zero q)
  | Some (JNumber NaN) => false
  | Some (JNumber _) => true
  | Some (JString s) => negb (String.eqb s "")
  | Some (JArray _) | Some (JObject _) => true
  end.

(** [a || b] *)
Definition js_or (a b : jsany) : jsany := if truthy a then a else b.

(** [v === "literal"] *)
Definition is_string (v : jsany) (lit : string) : bool :=
  match v with
  | Some (JString s) => String.eqb s lit
  | _ => false
  end.

(** What [eval] or a [Function] body can return for a text over the
    calculator's alphabet: nothing, a number, or a regular-expression
    literal (kept by its source text, which is also its string form). *)
Inductive JSValue : Type :=
| VUndefined
| VNumber (n : JSNumber)
| VRegExp (source : string).

(** [Number.isFinite(v)] *)
Definition Number_isFinite (v : JSValue) : bool :=
  match v with
  | VNumber (Finite _) => true
  | _ => false
  end.

(** ** The JavaScript engine *)

Class Runtime : Type := {
  (** the global [eval] on a program text *)
  js_eval : string -> Completion JSValue;
  (** [Function(body)()] *)
  js_Function_call : string -> Completion JSValue;
  (** [JSON.parse] *)
  JSON_parse : string -> Completion json;
  (** [JSON.stringify(v, null, 2)] *)
  JSON_stringify : json -> string;
  (** Number::toString on a finite double *)
  Number_toString : Q -> string;
  (** ToString on an array or an object (may throw, for an object whose own
      [toString] is not callable) *)
  Object_toString : json -> Completion string;
  (** [new Date().toISOString()] *)
  Date_now_ISO : string;
  (** [process.uptime()] *)
  process_uptime : JSNumber
}.

Section Conversions.
Context {RT : Runtime}.

Definition number_to_string (n : JSNumber) : string :=
  match n with
  | Finite q => Number_toString q
  | PosInfinity => "Infinity"
  | NegInfinity => "-Infinity"
  | NaN => "NaN"
  end.

(** ToString, as a template literal applies it to a JSON value. *)
Definition to_string (v : jsany) : Completion string :=
  match v with
  | None => Normal "undefined"
  | Some JNull => Normal "null"
  | Some (JBool true) => Normal "true"
  | Some (JBool false) => Normal "false"
  | Some (JNumber n) => Normal (number_to_string n)
  | Some (JString s) => Normal s
  | Some (JArray l) => Object_toString (JArray l)
  | Some (JObject f) => Object_toString (JObject f)
  end.

(** ToString on the value of an evaluated expression. *)
Definition value_to_string (v : JSValue) : string :=
  match v with
  | VUndefined => "undefined"
  | VNumber n => number_to_string n
  | VRegExp src => src
  end.
End Conversions.

(** ** Envelopes and capability descriptors *)

Record Tool : Type := {
  tool_name : string;
  tool_description : string;
  inputSchema : json
}.

Record Resource : Type := {
  uri : string;
  mimeType : string;
  resource_name : string;
  resource_description : string
}.

Inductive ContentBlock : Type :=
| TextBlock (text : string)
| ResourceBlock (uri mimeType text : string).

(** One element of [contents]; [content_text] is [None] when the source's
    [text] expression is [undefined]. *)
Record ResourceContent : Type := {
  content_uri : string;
  content_mimeType : string;
  content_text : option string
}.

Inductive ResultValue : Type :=
| InitializeResult (protocolVersion serverName serverVersion : string)
| ToolsResult (tools : list Tool)
| ResourcesResult (resources : list Resource)
| ContentResult (content : list ContentBlock)
| ContentsResult (contents : list ResourceContent).

Record ErrorObject : Type := {
  code : Z;
  message : string;
  data : option string
}.

(** [interface MCPResponse]: every field but [jsonrpc] is optional; an
    absent field is [None] and is not serialised. *)
Record MCPResponse : Type := {
  jsonrpc : string;
  id : jsany;
  result : option ResultValue;
  error : option ErrorObject
}.

Definition success (id : jsany) (r : ResultValue) : MCPResponse :=
  {| jsonrpc := "2.0"; id := id; result := Some r; error := None |}.

Definition failure (id : jsany) (c : Z) (msg : string) (d : option string) : MCPResponse :=
  {| jsonrpc := "2.0"; id := id; result := None;
     error := Some {| code := c; message := msg; data := d |} |}.

(** The envelope both stdio loops write for a line they could not process:
    it has a [jsonrpc] and an [error] field and nothing else. *)
Definition parse_error_response (t : Thrown) : MCPResponse :=
  {| jsonrpc := "2.0"; id := None; result := None;
     error := Some {| code := -32700; message := "Parse error";
                      data := Some (error_message t) |} |}.

Definition has_result (r : MCPResponse) : bool :=
  match result r with Some _ => true | None => false end.

Definition has_error (r : MCPResponse) : bool :=
  match error r with Some _ => true | None => false end.

Definition string_schema (prop description : string) (required : bool) : json :=
  JObject
    ([("type", JString "object");
      ("properties",
        JObject [(prop, JObject [("type", JString "string");
                                 ("description", JString description)])])]
     ++ (if required then [("required", JArray [JString prop])] else []))%list.

Definition empty_schema : json :=
  JObject [("type", JString "object"); ("properties", JObject [])].

(** ** The stdio transport

    [startStdioServer] is the same code in src/simple-server.ts and in
    src/standalone-profile-server.ts, up to the dispatcher it calls. *)

Module Stdio.

Inductive Process : Type :=
| Running (buffer : string)
| Exited (status : Z).

Inductive Event : Type :=
| StdinData (chunk : string)
| StdinEnd
| SIGINT.

Section Loop.
Context {RT : Runtime}.
Variable handleRequest : json -> Completion MCPResponse.

(** The [try]/[catch] around one line: the envelope that is written. *)
Definition respond (line : string) : MCPResponse :=
  match (request <- JSON_parse line ;; handleRequest request) with
  | Normal response => response
  | Throw error => parse_error_response error
  end.

(** [if (line.trim()) { ... }] *)
Definition process_line (line : string) : list MCPResponse :=
  if is_blank line then [] else [respond line].

Definition process_lines (lines : list string) : list MCPResponse :=
  flat_map process_line lines.

(** The ['data'] listener: the new buffer and the envelopes written. *)
Definition on_data (buffer chunk : string) : string * list MCPResponse :=
  let lines := split_lines (buffer ++ chunk) in
  (last lines "", process_lines (removelast lines)).

Definition step (p : Process) (e : Event) : Process * list MCPResponse :=
  match p with
  | Exited status => (Exited status, [])
  | Running buffer =>
      match e with
      | StdinData chunk =>
          let (buffer', written) := on_data buffer chunk in
          (Running buffer', written)
      | StdinEnd => (Exited 0, [])
      | SIGINT => (Exited 0, [])
      end
  end.

Fixpoint run (p : Process) (events : list Event) : Process * list MCPResponse :=
  match events with
  | [] => (p, [])
  | e :: rest =>
      let (p', written) := step p e in
      let (p'', written') := run p' rest in
      (p'', written ++ written')%list
  end.
End Loop.
End Stdio.

(** Lines, each terminated by a newline, as one chunk. *)
Fixpoint unlines (lines : list string) : string :=
  match lines with
  | [] => EmptyString
  | l :: rest => l ++ String LF (unlines rest)
  end.

Fixpoint no_newline (s : string) : bool :=
  match s with
  | EmptyString => true
  | String c rest => negb (Ascii.eqb c LF) && no_newline rest
  end.

(** ** src/simple-server.ts *)

Module Simple.
Section Server.
Context {RT : Runtime}.

Definition tools : list Tool :=
  [ {| tool_name := "echo";
       tool_description := "Echo back the provided text";
       inputSchema := string_schema "text" "Text to echo back" true |};
    {| tool_name := "get_current_time";
       tool_description := "Get the current date and time";
       inputSchema := empty_schema |};
    {| tool_name := "calculate";
       tool_description := "Perform basic arithmetic calculations";
       inputSchema :=
         string_schema "expression" "Mathematical expression to evaluate" true |} ].

Definition resources : list Resource :=
  [ {| uri := "server://info"; mimeType := "application/json";
       resource_name := "Server Information";
       resource_description := "Information about this MCP server" |};
    {| uri := "server://capabilities"; mimeType := "application/json";
       resource_name := "Server Capabilities";
       resource_description := "Capabilities supported by this MCP server" |} ].

(** [case "echo"] *)
Definition echo (args id : jsany) : Completion MCPResponse :=
  text <- to_string (js_or (opt_prop args "text") (Some (JString ""))) ;;
  Normal (success id (ContentResult [TextBlock ("Echo: " ++ text)])).

(** [case "get_current_time"] *)
Definition get_current_time (id : jsany) : Completion MCPResponse :=
  Normal (success id (ContentResult [TextBlock ("Current time: " ++ Date_now_ISO)])).

(** [case "calculate"]: the expression is stripped of every character
    outside the allow-list and what is left is given to [eval]. *)
Definition calculate (args id : jsany) : Completion MCPResponse :=
  try_catch
    (match js_or (opt_prop args "expression") (Some (JString "")) with
     | Some (JString expression) =>
         let sanitized := sanitize expression in
         result <- js_eval sanitized ;;
         Normal (success id
                   (ContentResult
                      [TextBlock (expression ++ " = " ++ value_to_string result)]))
     | _ => Throw (TypeError "expression.replace is not a function")
     end)
    (fun error =>
       Normal (failure id (-32603) "Calculation error" (Some (error_message error)))).

Definition handleToolCall (params id : jsany) : Completion MCPResponse :=
  p <- destructure "name" "params" params ;;
  let name := get_prop p "name" in
  let args := get_prop p "arguments" in
  if is_string name "echo" then echo args id
  else if is_string name "get_current_time" then get_current_time id
  else if is_string name "calculate" then calculate args id
  else
    shown <- to_string name ;;
    Normal (failure id (-32601) ("Unknown tool: " ++ shown) None).

Definition info_json : json :=
  JObject [("name", JString "MCP Server Connection (Simple)");
           ("version", JString "1.0.0");
           ("description", JString "A simple TypeScript MCP server");
           ("uptime", JNumber process_uptime)].

Definition capabilities_json : json :=
  JObject
    [("tools",
       JArray (map (fun t => JObject [("name", JString (tool_name t));
                                      ("description", JString (tool_description t))])
                   tools));
     ("resources",
       JArray (map (fun r => JObject [("uri", JString (uri r));
                                      ("name", JString (resource_name r))])
                   resources))].

Definition handleResourceRead (params id : jsany) : Completion MCPResponse :=
  p <- destructure "uri" "params" params ;;
  let uri := get_prop p "uri" in
  if is_string uri "server://info" then
    Normal (success id
              (ContentsResult
                 [ {| content_uri := "server://info";
                      content_mimeType := "application/json";
                      content_text := Some (JSON_stringify info_json) |} ]))
  else if is_string uri "server://capabilities" then
    Normal (success id
              (ContentsResult
                 [ {| content_uri := "server://capabilities";
                      content_mimeType := "application/json";
                      content_text := Some (JSON_stringify capabilities_json) |} ]))
  else
    shown <- to_string uri ;;
    Normal (failure id (-32602) ("Unknown resource: " ++ shown) None).

(** The body of the [try] block of [handleRequest]. *)
Definition route (method params id : jsany) : Completion MCPResponse :=
  if is_string method "initialize" then
    Normal (success id (InitializeResult "2024-11-05" "mcp-server-connection" "1.0.0"))
  else if is_string method "tools/list" then
    Normal (success id (ToolsResult tools))
  else if is_string method "resources/list" then
    Normal (success id (ResourcesResult resources))
  else if is_string method "tools/call" then handleToolCall params id
  else if is_string method "resources/read" then handleResourceRead params id
  else
    shown <- to_string method ;;
    Normal (failure id (-32601) ("Method not found: " ++ shown) None).

(** [handleRequest]: the destructuring of [request] comes before the
    [try]; everything after it is under the catch-all. *)
Definition handleRequest (request : json) : Completion MCPResponse :=
  r <- destructure "method" "request" (Some request) ;;
  let method := get_prop r "method" in
  let params := get_prop r "params" in
  let id := get_prop r "id" in
  try_catch (route method params id)
    (fun error =>
       Normal (failure id (-32603) "Internal error" (Some (error_message error)))).

(** [startStdioServer] *)
Definition startStdioServer : Stdio.Process -> Stdio.Event -> Stdio.Process * list MCPResponse :=
  Stdio.step handleRequest.
End Server.
End Simple.

(** ** index.ts: the SDK-based server

    The handlers registered with [server.setRequestHandler] return the
    result object or throw; the SDK turns a thrown [McpError] into the error
    envelope of the response. *)

Module Sdk.
Section Server.
Context {RT : Runtime}.

Definition tools : list Tool :=
  [ {| tool_name := "echo";
       tool_description := "Echo back the provided text";
       inputSchema := string_schema "text" "Text to echo back" true |};
    {| tool_name := "get_current_time";
       tool_description := "Get the current date and time";
       inputSchema := empty_schema |};
    {| tool_name := "calculate";
       tool_description := "Perform basic arithmetic calculations";
       inputSchema :=
         string_schema "expression"
           "Mathematical expression to evaluate (e.g., '2 + 3 * 4')" true |} ].

Definition invalid_characters : string :=
  "Invalid characters in expression. Only numbers, +, -, *, /, (, ), and spaces allowed.".

Definition not_finite : string := "Result is not a finite number".

(** The text handed to the [Function] constructor. *)
Definition function_body (sanitized : string) : string :=
  String (byte 34) "use strict" ++ String (byte 34) "; return (" ++ sanitized ++ ")".

(** [case "echo"] *)
Definition echo (args : jsany) : Completion (list ContentBlock) :=
  let text := opt_prop args "text" in
  if negb (truthy text) then
    Throw (McpError InvalidParams "Text parameter is required")
  else
    shown <- to_string text ;;
    Normal [TextBlock ("Echo: " ++ shown)].

(** [case "get_current_time"] *)
Definition get_current_time : Completion (list ContentBlock) :=
  Normal [TextBlock ("Current time: " ++ Date_now_ISO)].

(** The inner [try] block of [case "calculate"]. *)
Definition evaluate (expression : jsany) : Completion (list ContentBlock) :=
  match expression with
  | Some (JString expression) =>
      let sanitizedExpression := sanitize expression in
      if negb (String.eqb sanitizedExpression expression) then
        Throw (PlainError invalid_characters)
      else if includes sanitizedExpression "__"
              || includes sanitizedExpression "constructor" then
        Throw (PlainError "Invalid expression")
      else
        result <- js_Function_call (function_body sanitizedExpression) ;;
        if negb (Number_isFinite result) then Throw (PlainError not_finite)
        else Normal [TextBlock (expression ++ " = " ++ value_to_string result)]
  | _ => Throw (TypeError "expression.replace is not a function")
  end.

(** [case "calculate"] *)
Definition calculate (args : jsany) : Completion (list ContentBlock) :=
  let expression := opt_prop args "expression" in
  if negb (truthy expression) then
    Throw (McpError InvalidParams "Expression parameter is required")
  else
    try_catch (evaluate expression)
      (fun error =>
         Throw (McpError InternalError ("Calculation error: " ++ error_message error))).

(** The handler of [CallToolRequestSchema], on [request.params]. *)
Definition callTool (params : jsany) : Completion (list ContentBlock) :=
  p <- destructure "name" "request.params" params ;;
  let name := get_prop p "name" in
  let args := get_prop p "arguments" in
  try_catch
    (if is_string name "echo" then echo args
     else if is_string name "get_current_time" then get_current_time
     else if is_string name "calculate" then calculate args
     else
       shown <- to_string name ;;
       Throw (McpError MethodNotFound ("Unknown tool: " ++ shown)))
    (fun error =>
       match error with
       | McpError _ _ => Throw error
       | _ => Throw (McpError InternalError
                       ("Tool execution failed: " ++ String_of_error error))
       end).
Definition resources : list Resource :=
  [ {| uri := "server://info"; mimeType := "application/json";
       resource_name := "Server Information";
       resource_description := "Information about this MCP server" |};
    {| uri := "server://capabilities"; mimeType := "application/json";
       resource_name := "Server Capabilities";
       resource_description := "Capabilities supported by this MCP server" |} ].

(** The handlers of [ListToolsRequestSchema] and
    [ListResourcesRequestSchema]. *)
Definition listTools : list Tool := tools.
Definition listResources : list Resource := resources.

Definition info_json : json :=
  JObject [("name", JString "MCP Server Connection");
           ("version", JString "1.0.0");
           ("description", JString "A TypeScript implementation of an MCP server");
           ("author", JString "MCP Server Connection");
           ("capabilities", JArray [JString "tools"; JString "resources"]);
           ("uptime", JNumber process_uptime)].

Definition capabilities_json : json :=
  JObject
    [("tools",
       JArray (map (fun tool => JObject [("name", JString (tool_name tool));
                                         ("description", JString (tool_description tool))])
                   tools));
     ("resources",
       JArray (map (fun resource =>
                      JObject [("uri", JString (uri resource));
                               ("name", JString (resource_name resource));
                               ("description",
                                 JString (resource_description resource))])
                   resources))].

(** The handler of [ReadResourceRequestSchema], on [request.params]; it
    has no [try]. *)
Definition readResource (params : jsany) : Completion (list ResourceContent) :=
  p <- destructure "uri" "request.params" params ;;
  let uri := get_prop p "uri" in
  if is_string uri "server://info" then
    Normal [ {| content_uri := "server://info";
                content_mimeType := "application/json";
                content_text := Some (JSON_stringify info_json) |} ]
  else if is_string uri "server://capabilities" then
    Normal [ {| content_uri := "server://capabilities";
                content_mimeType := "application/json";
                content_text := Some (JSON_stringify capabilities_json) |} ]
  else
    shown <- to_string uri ;;
    Throw (McpError InvalidParams ("Unknown resource: " ++ shown)).
End Server.
End Sdk.

(** ** Profiles *)

Record Project : Type := {
  project_name : string;
  status : string;
  completion : Z
}.

Record ProfileData : Type := {
  profile_id : string;
  name : string;
  email : string;
  department : string;
  role : string;
  joinDate : string;
  avatar : string;
  skills : list string;
  projects : list Project
}.

Definition sarah : ProfileData :=
  {| profile_id := "EMP001";
     name := "Sarah Johnson";
     email := "sarah.johnson@techcorp.com";
     department := "Engineering";
     role := "Senior Full Stack Developer";
     joinDate := "2021-08-15";
     avatar := "https://images.unsplash.com/photo-1494790108755-2616b612b47c?w=150&h=150&fit=crop&crop=face";
     skills := ["TypeScript"; "React"; "Node.js"; "AWS Lambda"; "DynamoDB";
                "GraphQL"; "Docker"; "Terraform"];
     projects :=
       [ {| project_name := "MCP Server Implementation";
            status := "In Progress"; completion := 85 |};
         {| project_name := "Cloud Infrastructure Migration";
            status := "Completed"; completion := 100 |};
         {| project_name := "API Performance Optimization";
            status := "In Progress"; completion := 60 |};
         {| project_name := "Frontend Component Library";
            status := "Planning"; completion := 25 |} ] |}.

Definition michael : ProfileData :=
  {| profile_id := "ADM001";
     name := "Michael Chen";
     email := "michael.chen@techcorp.com";
     department := "Operations";
     role := "DevOps Engineer";
     joinDate := "2020-03-10";
     avatar := "https://images.unsplash.com/photo-1507003211169-0a1dd7228f2d?w=150&h=150&fit=crop&crop=face";
     skills := ["Kubernetes"; "AWS"; "Terraform"; "Jenkins"; "Prometheus";
                "Grafana"; "Python"; "Bash"];
     projects :=
       [ {| project_name := "Kubernetes Cluster Setup";
            status := "Completed"; completion := 100 |};
         {| project_name := "CI/CD Pipeline Enhancement";
            status := "In Progress"; completion := 70 |};
         {| project_name := "Monitoring Dashboard";
            status := "Completed"; completion := 100 |} ] |}.

(** The object literal [profiles] / [PROFILE_DATABASE]: its own keys. *)
Definition profiles : list (string * ProfileData) :=
  [("default", sarah); ("admin", michael)].

Fixpoint own_profile (key : string) (table : list (string * ProfileData))
  : option ProfileData :=
  match table with
  | [] => None
  | (k, p) :: rest => if String.eqb key k then Some p else own_profile key rest
  end.

(** [profiles] is an ordinary object, so [profiles[key]] also answers for
    the property names it inherits from [Object.prototype]; the value found
    there (a function, or the prototype itself for [__proto__]) is truthy
    and is not a profile record. *)
Definition Object_prototype_names : list string :=
  ["constructor"; "__proto__"; "hasOwnProperty"; "isPrototypeOf";
   "propertyIsEnumerable"; "toLocaleString"; "toString"; "valueOf";
   "__defineGetter__"; "__defineSetter__"; "__lookupGetter__"; "__lookupSetter__"].

Definition inherited (key : string) : bool :=
  existsb (String.eqb key) Object_prototype_names.

(** What [profiles[key] || profiles["default"]] evaluates to. *)
Inductive ProfileSlot : Type :=
| IsProfile (p : ProfileData)
| NotProfile (key : string).

Definition profile_or_default (key : string) : ProfileSlot :=
  match own_profile key profiles with
  | Some p => IsProfile p
  | None => if inherited key then NotProfile key else IsProfile sarah
  end.

(** Reading [.skills] (or [.projects]) of an inherited value gives
    [undefined], and calling [.map] / reading [.length] on it throws. *)
Definition not_a_profile (member : string) : Thrown :=
  TypeError ("Cannot read properties of undefined (reading '" ++ member ++ "')").

(** [p || fallback] on strings, as used with [process.env]. *)
Definition env_or (v : option string) (fallback : string) : string :=
  match v with
  | Some s => if String.eqb s "" then fallback else s
  | None => fallback
  end.

Definition profile_json (p : ProfileData) : json :=
  JObject
    [("id", JString (profile_id p)); ("name", JString (name p));
     ("email", JString (email p)); ("department", JString (department p));
     ("role", JString (role p)); ("joinDate", JString (joinDate p));
     ("avatar", JString (avatar p));
     ("skills", JArray (map JString (skills p)));
     ("projects",
       JArray (map (fun pr =>
                      JObject [("name", JString (project_name pr));
                               ("status", JString (status pr));
                               ("completion",
                                 JNumber (Finite (inject_Z (completion pr))))])
                   (projects p)))].

(** ** src/standalone-profile-server.ts *)

Module Standalone.

(** The fields the constructor reads from the environment. *)
Record Config : Type := {
  serverName : string;
  serverVersion : string;
  defaultProfileId : string
}.

Definition configure (MCP_SERVER_NAME MCP_SERVER_VERSION DEFAULT_PROFILE_ID : option string)
  : Config :=
  {| serverName := env_or MCP_SERVER_NAME "profile-mcp-server";
     serverVersion := env_or MCP_SERVER_VERSION "1.0.0";
     defaultProfileId := env_or DEFAULT_PROFILE_ID "default" |}.

Section Server.
Context {RT : Runtime}.
Variable config : Config.

(** [generateProfileHTML]: the HTML template, a pure function of the
    profile record. *)
Variable generateProfileHTML : ProfileData -> string.

Definition tools : list Tool :=
  [ {| tool_name := "get_profile";
       tool_description :=
         "Fetch and display user profile information from AWS with a beautiful HTML interface";
       inputSchema :=
         string_schema "profileId"
           "The profile ID to fetch (optional, defaults to 'default')" false |} ].

Definition resources : list Resource :=
  [ {| uri := "profile://data"; mimeType := "application/json";
       resource_name := "Profile Data Resource";
       resource_description := "Raw profile data from AWS API" |};
    {| uri := "profile://html"; mimeType := "text/html";
       resource_name := "Profile HTML Resource";
       resource_description := "Formatted HTML profile display" |} ].

(** [getProfileSync]: the log line converts [profileId] to a string, and
    so does the property access. *)
Definition getProfileSync (profileId : jsany) : Completion ProfileSlot :=
  key <- to_string profileId ;;
  Normal (profile_or_default key).

Definition summary (profile : ProfileData) : string :=
  bytes [226; 156; 133]%nat ++ " Successfully fetched profile for " ++ name profile
    ++ String LF (bytes [240; 159; 148; 151]%nat) ++ " Profile ID: " ++ profile_id profile
    ++ String LF (bytes [240; 159; 147; 138]%nat) ++ " Projects: "
    ++ nat_to_string (List.length (projects profile))
    ++ String LF (bytes [240; 159; 142; 175]%nat) ++ " Skills: "
    ++ nat_to_string (List.length (skills profile)).

Definition handleGetProfile (args id : jsany) : Completion MCPResponse :=
  try_catch
    (let profileId :=
       js_or (opt_prop args "profileId") (Some (JString (defaultProfileId config))) in
     slot <- getProfileSync profileId ;;
     match slot with
     | IsProfile profile =>
         let htmlContent := generateProfileHTML profile in
         Normal (success id
                   (ContentResult
                      [TextBlock (summary profile);
                       ResourceBlock "profile://html" "text/html" htmlContent]))
     | NotProfile _ => Throw (not_a_profile "map")
     end)
    (fun error =>
       Normal (failure id (-32603) "Failed to fetch profile"
                 (Some (error_message error)))).

Definition handleToolCall (params id : jsany) : Completion MCPResponse :=
  p <- destructure "name" "params" params ;;
  let name := get_prop p "name" in
  let args := get_prop p "arguments" in
  if is_string name "get_profile" then handleGetProfile args id
  else
    shown <- to_string name ;;
    Normal (failure id (-32601) ("Unknown tool: " ++ shown) None).

(** [JSON.stringify(profile, null, 2)]: a function has no JSON text, and
    [Object.prototype] has no enumerable property. *)
Definition slot_json_text (slot : ProfileSlot) : option string :=
  match slot with
  | IsProfile profile => Some (JSON_stringify (profile_json profile))
  | NotProfile key => if String.eqb key "__proto__" then Some "{}" else None
  end.

Definition handleResourceRead (params id : jsany) : Completion MCPResponse :=
  p <- destructure "uri" "params" params ;;
  let uri := get_prop p "uri" in
  try_catch
    (if is_string uri "profile://data" then
       slot <- getProfileSync (Some (JString (defaultProfileId config))) ;;
       Normal (success id
                 (ContentsResult
                    [ {| content_uri := "profile://data";
                         content_mimeType := "application/json";
                         content_text := slot_json_text slot |} ]))
     else if is_string uri "profile://html" then
       slot <- getProfileSync (Some (JString (defaultProfileId config))) ;;
       match slot with
       | IsProfile profile =>
           Normal (success id
                     (ContentsResult
                        [ {| content_uri := "profile://html";
                             content_mimeType := "text/html";
                             content_text := Some (generateProfileHTML profile) |} ]))
       | NotProfile _ => Throw (not_a_profile "map")
       end
     else
       shown <- to_string uri ;;
       Normal (failure id (-32602) ("Unknown resource: " ++ shown) None))
    (fun error =>
       Normal (failure id (-32603) "Failed to read resource"
                 (Some (error_message error)))).

Definition route (method params id : jsany) : Completion MCPResponse :=
  if is_string method "initialize" then
    Normal (success id
              (InitializeResult "2024-11-05" (serverName config) (serverVersion config)))
  else if is_string method "tools/list" then
    Normal (success id (ToolsResult tools))
  else if is_string method "resources/list" then
    Normal (success id (ResourcesResult resources))
  else if is_string method "tools/call" then handleToolCall params id
  else if is_string method "resources/read" then handleResourceRead params id
  else
    shown <- to_string method ;;
    Normal (failure id (-32601) ("Method not found: " ++ shown) None).

Definition handleRequest (request : json) : Completion MCPResponse :=
  r <- destructure "method" "request" (Some request) ;;
  let method := get_prop r "method" in
  let params := get_prop r "params" in
  let id := get_prop r "id" in
  try_catch (route method params id)
    (fun error =>
       Normal (failure id (-32603) "Internal error" (Some (error_message error)))).

(** [startStdioServer] *)
Definition startStdioServer : Stdio.Process -> Stdio.Event -> Stdio.Process * list MCPResponse :=
  Stdio.step handleRequest.
(** What the HTTP routes send: a status and a JSON envelope, an HTML
    page, or the JSON object [{error, message}]. *)
Inductive HttpReply : Type :=
| JsonReply (http_status : Z) (envelope : MCPResponse)
| HtmlReply (http_status : Z) (html : string)
| ErrorReply (http_status : Z) (error_label error_detail : string).


(** [app.get('/profile/:id?', ...)], on [req.params.id]. *)
Definition get_profile_page (id : option string) : HttpReply :=
  let profileId :=
    js_or (option_map JString id) (Some (JString (defaultProfileId config))) in
  match (slot <- getProfileSync profileId ;;
         match slot with
         | IsProfile profile => Normal (generateProfileHTML profile)
         | NotProfile _ => Throw (not_a_profile "map")
         end) with
  | Normal htmlContent => HtmlReply 200 htmlContent
  | Throw error => ErrorReply 500 "Failed to generate profile" (error_message error)
  end.
End Server.
End Standalone.

(** ** src/enhanced-profile-server.ts *)

(** [header.replace(/^Bearer\s+/i, '')]: the word, in any case, and the
    white space after it are removed when the header starts with them;
    otherwise the header is returned unchanged. *)
Definition strip_bearer (header : string) : string :=
  match strip_prefix_ci "Bearer" header with
  | Some rest =>
      match leading_space rest with
      | Some _ => skip_space rest
      | None => header
      end
  | None => header
  end.

Module Enhanced.
Section Server.
Context {RT : Runtime}.

(** [process.env.DEFAULT_PROFILE_ID] *)
Variable DEFAULT_PROFILE_ID : option string.

(** [createProfileHTML]: the HTML template. *)
Variable createProfileHTML : ProfileData -> string.

Definition loaded (profile : ProfileData) (profileHTML : string) : string :=
  bytes [226; 156; 133]%nat ++ " Profile loaded for " ++ name profile
    ++ " (" ++ profile_id profile ++ ") from " ++ department profile
    ++ " department" ++ String LF (String LF profileHTML).

(** [case 'get_profile'] *)
Definition get_profile_case (args : jsany) : Completion (list ContentBlock) :=
  let profileId :=
    js_or (opt_prop args "profileId")
          (Some (JString (env_or DEFAULT_PROFILE_ID "default"))) in
  key <- to_string profileId ;;
  match profile_or_default key with
  | IsProfile profile => Normal [TextBlock (loaded profile (createProfileHTML profile))]
  | NotProfile _ => Throw (not_a_profile "map")
  end.

(** The tool handler on a [get_profile] call: the case above under the
    handler's [catch]. *)
Definition get_profile (args : jsany) : Completion (list ContentBlock) :=
  try_catch (get_profile_case args)
    (fun error =>
       match error with
       | McpError _ _ => Throw error
       | _ => Throw (McpError InternalError
                       ("Tool execution failed: " ++ String_of_error error))
       end).
End Server.

(** The module-level [currentAccessToken]. *)
Definition TokenSlot : Type := option string.

(** [verifyToken], on [req.headers.authorization]: the new content of
    the slot. *)
Definition verifyToken (authHeader : option string) (currentAccessToken : TokenSlot)
  : TokenSlot :=
  match authHeader with
  | Some header =>
      if negb (String.eqb header "") then Some (strip_bearer header) else None
  | None => None
  end.
End Enhanced.

(** ** The medicine carousel HTTP server and src/getUserToken.ts *)

Module Carousel.

(** [currentAccessToken] of the server module and [userAccessToken] of
    getUserToken.ts. *)
Record Tokens : Type := {
  currentAccessToken : option string;
  userAccessToken : option string
}.

(** [setUserToken] *)
Definition setUserToken (token : option string) (st : Tokens) : Tokens :=
  {| currentAccessToken := currentAccessToken st; userAccessToken := token |}.

Definition set_current (token : option string) (st : Tokens) : Tokens :=
  {| currentAccessToken := token; userAccessToken := userAccessToken st |}.

(** [requireUserToken] *)
Definition requireUserToken (st : Tokens) : Completion string :=
  match userAccessToken st with
  | Some token =>
      if String.eqb token "" then
        Throw (PlainError "Authentication required. Please log in via OAuth.")
      else Normal token
  | None => Throw (PlainError "Authentication required. Please log in via OAuth.")
  end.

(** [verifyToken], on [req.headers.authorization]. *)
Definition verifyToken (authHeader : option string) (st : Tokens) : Tokens :=
  match authHeader with
  | None => setUserToken None (set_current None st)
  | Some header =>
      if String.eqb header "" then setUserToken None (set_current None st)
      else
        let token := strip_bearer header in
        if String.eqb token "" || String.eqb token header then
          setUserToken None (set_current None st)
        else setUserToken (Some token) (set_current (Some token) st)
  end.
(** What [fetch] resolves to, as far as the tool looks at it. *)
Record FetchResponse : Type := {
  response_ok : bool;
  response_status : Z;
  response_text : Completion string;
  response_json : Completion json
}.

(** The result of a registered tool. *)
Record ToolOutput : Type := {
  output_content : list ContentBlock;
  structuredContent : json
}.

Section Tools.
Context {RT : Runtime}.

(** [fetch(url, { headers: { Authorization } })] under the ten-second
    abort timer: the response, or what the call rejects with (an error
    named [AbortError] when the timer fires). *)
Variable fetch : string -> string -> Completion FetchResponse.

Definition profile_endpoint : string :=
  "https://f7bm2iixd1.execute-api.ap-southeast-2.amazonaws.com/prod/static".

(** [data.k], which throws when [data] is [null]. *)
Definition read_member (data : json) (k : string) : Completion jsany :=
  match data with
  | JNull =>
      Throw (TypeError ("Cannot read properties of null (reading '" ++ k ++ "')"))
  | _ => Normal (get_prop data k)
  end.

(** The [try] block of the tool [get-user-profile]. *)
Definition request_profile (userToken : string) : Completion ToolOutput :=
  response <- fetch profile_endpoint ("Bearer " ++ userToken) ;;
  if negb (response_ok response) then
    errorText <- response_text response ;;
    Throw (PlainError ("API request failed: " ++ Z_to_string (response_status response)))
  else
    data <- response_json response ;;
    message <- read_member data "message" ;;
    shown_message <- to_string message ;;
    timestamp <- read_member data "timestamp" ;;
    shown_timestamp <- to_string timestamp ;;
    Normal {| output_content :=
                [TextBlock ("Static data received: " ++ shown_message ++ " at "
                              ++ shown_timestamp)];
              structuredContent := JObject [("userData", data)] |}.

Definition is_abort (error : Thrown) : bool :=
  match error with
  | JsError n _ => String.eqb n "AbortError"
  | McpError _ _ => false
  end.

(** The tool [get-user-profile]. *)
Definition get_user_profile (st : Tokens) : Completion ToolOutput :=
  userToken <- requireUserToken st ;;
  try_catch (request_profile userToken)
    (fun error =>
       if is_abort error then Throw (PlainError "Request timed out")
       else Throw error).
End Tools.
End Carousel.

(** ** src/profile-server.ts *)

Module ProfileServer.
Section Server.
Context {RT : Runtime}.

(** [generateProfileHTML]: the HTML template, which reads the fields of
    the record through template literals only. *)
Variable generateProfileHTML : ProfileData -> string.

(** [fetchProfileFromAWS]: the mock record, with the requested id. *)
Definition fetchProfileFromAWS (profileId : string) : ProfileData :=
  {| profile_id := profileId;
     name := "John Doe";
     email := "john.doe@company.com";
     department := "Engineering";
     role := "Senior Software Engineer";
     joinDate := "2022-03-15";
     avatar := "https://images.unsplash.com/photo-1507003211169-0a1dd7228f2d?w=150&h=150&fit=crop&crop=face";
     skills := ["TypeScript"; "React"; "Node.js"; "AWS"; "Docker"; "Kubernetes"];
     projects :=
       [ {| project_name := "MCP Server Implementation";
            status := "In Progress"; completion := 75 |};
         {| project_name := "API Gateway Optimization";
            status := "Completed"; completion := 100 |};
         {| project_name := "Frontend Redesign";
            status := "Planning"; completion := 15 |} ] |}.

Definition fetched (profileData : ProfileData) : string :=
  bytes [226; 156; 133]%nat ++ " Successfully fetched profile for " ++ name profileData.

(** The handler of [CallToolRequestSchema]: its [catch] wraps whatever
    was thrown, the [McpError] of the default case included. *)
Definition callTool (params : jsany) : Completion (list ContentBlock) :=
  p <- destructure "name" "request.params" params ;;
  let name := get_prop p "name" in
  let args := get_prop p "arguments" in
  try_catch
    (if is_string name "get_profile" then
       let profileId := js_or (opt_prop args "profileId") (Some (JString "default")) in
       shown <- to_string profileId ;;
       let profileData := fetchProfileFromAWS shown in
       let htmlContent := generateProfileHTML profileData in
       Normal [TextBlock (fetched profileData);
               ResourceBlock "profile://html" "text/html" htmlContent]
     else
       shown <- to_string name ;;
       Throw (McpError MethodNotFound ("Unknown tool: " ++ shown)))
    (fun error =>
       Throw (McpError InternalError
                ("Failed to execute tool: " ++ error_message error))).

(** The handler of [ReadResourceRequestSchema]. *)
Definition readResource (params : jsany) : Completion (list ResourceContent) :=
  p <- destructure "uri" "request.params" params ;;
  let uri := get_prop p "uri" in
  try_catch
    (if is_string uri "profile://data" then
       Normal [ {| content_uri := "profile://data";
                   content_mimeType := "application/json";
                   content_text :=
                     Some (JSON_stringify (profile_json (fetchProfileFromAWS "default"))) |} ]
     else if is_string uri "profile://html" then
       Normal [ {| content_uri := "profile://html";
                   content_mimeType := "text/html";
                   content_text :=
                     Some (generateProfileHTML (fetchProfileFromAWS "default")) |} ]
     else
       shown <- to_string uri ;;
       Throw (McpError InvalidParams ("Unknown resource: " ++ shown)))
    (fun error =>
       Throw (McpError InternalError
                ("Failed to read resource: " ++ error_message error))).
End Server.
End ProfileServer.

(** ** src/userAuthenticationService.ts *)

(** [s.split(sep)] for a separator of one character. *)
Fixpoint split_on (sep : ascii) (s : string) : list string :=
  match s with
  | EmptyString => [EmptyString]
  | String c rest =>
      if Ascii.eqb c sep then EmptyString :: split_on sep rest
      else
        match split_on sep rest with
        | [] => [String c EmptyString]
        | l :: ls => String c l :: ls
        end
  end.

Fixpoint free_of (sep : ascii) (s : string) : bool :=
  match s with
  | EmptyString => true
  | String c rest => negb (Ascii.eqb c sep) && free_of sep rest
  end.

(** [s.length]: the number of UTF-16 code units of the string whose UTF-8
    bytes are [s] (a continuation byte adds nothing, the first byte of a
    four-byte sequence stands for a surrogate pair). *)
Fixpoint js_length (s : string) : nat :=
  match s with
  | EmptyString => O
  | String c rest =>
      let n := nat_of_ascii c in
      ((if (128 <=? n) && (n <? 192) then 0 else if 240 <=? n then 2 else 1)
       + js_length rest)%nat
  end.

(** ['='.repeat(n)] *)
Fixpoint padding (n : nat) : string :=
  match n with
  | O => EmptyString
  | S n' => String "=" (padding n')
  end.

Module AuthService.

(** The module-level variables. *)
Record Store : Type := {
  userAccessToken : option string;
  lc3Jwt : option string;
  lc3Id : option string;
  brand : option string;
  emailId : option string;
  officialBrandName : option string;
  savingsCardEnrolledYear : option JSNumber
}.

Definition initial : Store :=
  {| userAccessToken := None; lc3Jwt := None; lc3Id := None; brand := None;
     emailId := None; officialBrandName := None; savingsCardEnrolledYear := None |}.

Definition setAccessToken (token : option string) (st : Store) : Store :=
  {| userAccessToken := token; lc3Jwt := lc3Jwt st; lc3Id := lc3Id st;
     brand := brand st; emailId := emailId st;
     officialBrandName := officialBrandName st;
     savingsCardEnrolledYear := savingsCardEnrolledYear st |}.

Definition setLc3Jwt (token : option string) (st : Store) : Store :=
  {| userAccessToken := userAccessToken st; lc3Jwt := token; lc3Id := lc3Id st;
     brand := brand st; emailId := emailId st;
     officialBrandName := officialBrandName st;
     savingsCardEnrolledYear := savingsCardEnrolledYear st |}.

Definition setLc3Id (id : option string) (st : Store) : Store :=
  {| userAccessToken := userAccessToken st; lc3Jwt := lc3Jwt st; lc3Id := id;
     brand := brand st; emailId := emailId st;
     officialBrandName := officialBrandName st;
     savingsCardEnrolledYear := savingsCardEnrolledYear st |}.

Definition setBrand (brandValue : option string) (st : Store) : Store :=
  {| userAccessToken := userAccessToken st; lc3Jwt := lc3Jwt st; lc3Id := lc3Id st;
     brand := brandValue; emailId := emailId st;
     officialBrandName := officialBrandName st;
     savingsCardEnrolledYear := savingsCardEnrolledYear st |}.

Definition setEmailId (email : option string) (st : Store) : Store :=
  {| userAccessToken := userAccessToken st; lc3Jwt := lc3Jwt st; lc3Id := lc3Id st;
     brand := brand st; emailId := email;
     officialBrandName := officialBrandName st;
     savingsCardEnrolledYear := savingsCardEnrolledYear st |}.

Definition setOfficialBrandName (name : option string) (st : Store) : Store :=
  {| userAccessToken := userAccessToken st; lc3Jwt := lc3Jwt st; lc3Id := lc3Id st;
     brand := brand st; emailId := emailId st;
     officialBrandName := name;
     savingsCardEnrolledYear := savingsCardEnrolledYear st |}.

Definition setSavingsCardEnrolledYear (year : option JSNumber) (st : Store) : Store :=
  {| userAccessToken := userAccessToken st; lc3Jwt := lc3Jwt st; lc3Id := lc3Id st;
     brand := brand st; emailId := emailId st;
     officialBrandName := officialBrandName st;
     savingsCardEnrolledYear := year |}.

(** [getAccessToken], [getSavingsCardEnrolledYear] *)
Definition getAccessToken (st : Store) : option string := userAccessToken st.
Definition getSavingsCardEnrolledYear (st : Store) : option JSNumber :=
  savingsCardEnrolledYear st.

(** [if (!slot) throw new Error(message); return slot] *)
Definition require_slot (slot : option string) (message : string) : Completion string :=
  if truthy (option_map JString slot) then
    match slot with
    | Some value => Normal value
    | None => Throw (PlainError message)
    end
  else Throw (PlainError message).

Definition requireAccessToken (st : Store) : Completion string :=
  require_slot (userAccessToken st) "Authentication required. Please log in via OAuth.".
Definition requireLc3Jwt (st : Store) : Completion string :=
  require_slot (lc3Jwt st) "LC3 JWT token not available.".
Definition requireLc3Id (st : Store) : Completion string :=
  require_slot (lc3Id st) "LC3 ID not available.".
Definition requireBrand (st : Store) : Completion string :=
  require_slot (brand st) "Brand not available.".
Definition requireEmailId (st : Store) : Completion string :=
  require_slot (emailId st) "Email ID not available.".
Definition requireOfficialBrandName (st : Store) : Completion string :=
  require_slot (officialBrandName st) "Official brand name not available.".

Definition requireSavingsCardEnrolledYear (st : Store) : Completion JSNumber :=
  if truthy (option_map JNumber (savingsCardEnrolledYear st)) then
    match savingsCardEnrolledYear st with
    | Some year => Normal year
    | None => Throw (PlainError "Savings card enrollment year not available.")
    end
  else Throw (PlainError "Savings card enrollment year not available.").

Section Jwt.
Context {RT : Runtime}.

(** The global [atob]. *)
Variable atob : string -> Completion string.

(** The [try] block of [extractPatientId]; [None] is [null]. *)
Definition decode_patient (token : string) : Completion jsany :=
  let parts := split_on "." token in
  if negb (List.length parts =? 3)%nat then Normal None
  else
    let payload := nth 1 parts EmptyString in
    let paddedPayload := payload ++ padding ((4 - js_length payload mod 4) mod 4) in
    decodedPayload <- atob paddedPayload ;;
    payloadJson <- JSON_parse decodedPayload ;;
    let patientId := opt_prop (opt_prop (Some payloadJson) "dataScopes") "patient" in
    if negb (truthy patientId) then Normal None else Normal patientId.

(** [extractPatientId] *)
Definition extractPatientId (token : string) : jsany :=
  match decode_patient token with
  | Normal patientId => patientId
  | Throw _ => None
  end.
End Jwt.
End AuthService.

(** ** A reference [atob]

    Forgiving base64 decoding: ASCII white space is dropped, up to two
    closing [=] are accepted when the length is a multiple of four, any
    other character outside the alphabet is an error; the bytes are returned
    as the characters U+0000 to U+00FF. *)

Module ReferenceBase64.

Definition InvalidCharacterError : Thrown :=
  JsError "InvalidCharacterError" "The string to be decoded is not correctly encoded.".

Definition ascii_space (c : ascii) : bool :=
  existsb (Ascii.eqb c) [byte 9; byte 10; byte 12; byte 13; byte 32].

Fixpoint drop_space (s : string) : list ascii :=
  match s with
  | EmptyString => []
  | String c rest => if ascii_space c then drop_space rest else c :: drop_space rest
  end.

Definition is_pad (c : ascii) : bool := Ascii.eqb c "=".

(** Without one or two closing [=], when the length is a multiple of 4. *)
Definition drop_padding (l : list ascii) : list ascii :=
  if (List.length l mod 4 =? 0)%nat then
    match rev l with
    | a :: b :: rest =>
        if is_pad a then (if is_pad b then rev rest else rev (b :: rest)) else l
    | _ => l
    end
  else l.

Definition sextet (c : ascii) : option nat :=
  let n := nat_of_ascii c in
  (if (65 <=? n) && (n <=? 90) then Some (n - 65)
   else if (97 <=? n) && (n <=? 122) then Some (n - 71)
   else if (48 <=? n) && (n <=? 57) then Some (n + 4)
   else if (n =? 43) then Some 62
   else if (n =? 47) then Some 63
   else None)%nat.

Fixpoint sextets (l : list ascii) : option (list nat) :=
  match l with
  | [] => Some []
  | c :: rest =>
      match sextet c, sextets rest with
      | Some v, Some vs => Some (v :: vs)
      | _, _ => None
      end
  end.

Fixpoint octets (l : list nat) : list nat :=
  match l with
  | a :: b :: c :: d :: rest =>
      (a * 4 + b / 16) :: ((b mod 16) * 16 + c / 4) :: ((c mod 4) * 64 + d)
        :: octets rest
  | [a; b; c] => [a * 4 + b / 16; (b mod 16) * 16 + c / 4]
  | [a; b] => [a * 4 + b / 16]
  | _ => []
  end%nat.

(** The character U+00XX by its UTF-8 bytes. *)
Definition latin1 (n : nat) : string :=
  if (n <? 128)%nat then String (byte n) EmptyString
  else String (byte (192 + n / 64)) (String (byte (128 + n mod 64)) EmptyString).

Definition atob (data : string) : Completion string :=
  let l := drop_padding (drop_space data) in
  if (List.length l mod 4 =? 1)%nat then Throw InvalidCharacterError
  else
    match sextets l with
    | Some vs => Normal (String.concat EmptyString (map latin1 (octets vs)))
    | None => Throw InvalidCharacterError
    end.
End ReferenceBase64.

(** ** A reference engine

    An executable instance of [Runtime] for a fragment of the language:
    arithmetic over decimal literals with [+ - * /], unary signs and
    parentheses, evaluated exactly (no rounding, no overflow, no negative
    zero); JSON texts without exponents and without [\u] escapes.  Program
    texts outside the fragment (comments, regular-expression literals,
    [**], [++], [--], literals with a leading zero) are reported as
    syntax errors.  It is used to run the servers on concrete inputs. *)

Module Reference.

Definition SyntaxError (m : string) : Thrown := JsError "SyntaxError" m.

(** *** Arithmetic on numbers *)

Definition q_sign (q : Q) : comparison := (Qnum q ?= 0)%Z.

Definition neg (a : JSNumber) : JSNumber :=
  match a with
  | Finite q => Finite (Qred (- q)%Q)
  | PosInfinity => NegInfinity
  | NegInfinity => PosInfinity
  | NaN => NaN
  end.

Definition add (a b : JSNumber) : JSNumber :=
  match a, b with
  | NaN, _ | _, NaN => NaN
  | Finite x, Finite y => Finite (Qred (x + y)%Q)
  | PosInfinity, NegInfinity | NegInfinity, PosInfinity => NaN
  | PosInfinity, _ | _, PosInfinity => PosInfinity
  | NegInfinity, _ | _, NegInfinity => NegInfinity
  end.

Definition signed_infinity (c : comparison) : JSNumber :=
  match c with
  | Gt => PosInfinity
  | Lt => NegInfinity
  | Eq => NaN
  end.

Definition sign_of (a : JSNumber) : comparison :=
  match a with
  | Finite q => q_sign q
  | PosInfinity => Gt
  | NegInfinity => Lt
  | NaN => Eq
  end.

Definition sign_mul (c d : comparison) : comparison :=
  match c, d with
  | Eq, _ | _, Eq => Eq
  | Gt, Gt | Lt, Lt => Gt
  | _, _ => Lt
  end.

Definition mul (a b : JSNumber) : JSNumber :=
  match a, b with
  | NaN, _ | _, NaN => NaN
  | Finite x, Finite y => Finite (Qred (x * y)%Q)
  | _, _ => signed_infinity (sign_mul (sign_of a) (sign_of b))
  end.

Definition div (a b : JSNumber) : JSNumber :=
  match a, b with
  | NaN, _ | _, NaN => NaN
  | Finite x, Finite y =>
      if is_zero y then signed_infinity (q_sign x) else Finite (Qred (x / y)%Q)
  | Finite _, _ => Finite 0%Q
  | _, Finite y =>
      match q_sign y with
      | Lt => neg a
      | _ => a
      end
  | _, _ => NaN
  end.

(** *** Tokens *)

Inductive token : Type :=
| TNum (q : Q)
| TPlus | TMinus | TStar | TSlash | TLParen | TRParen.

Definition digit_value (c : ascii) : Z := Z.of_nat (nat_of_ascii c - 48).

(** Reads digits: the value so far, how many were read, and the rest. *)
Fixpoint read_digits (acc : Z) (count : nat) (s : string) : Z * nat * string :=
  match s with
  | String c rest =>
      if is_digit c then read_digits (10 * acc + digit_value c) (S count) rest
      else (acc, count, s)
  | EmptyString => (acc, count, s)
  end.

Definition leading_zero (s : string) : bool :=
  match s with
  | String "0" (String c _) => is_digit c
  | _ => false
  end.

(** A decimal literal: digits with an optional fraction, or a fraction
    alone. *)
Definition read_number (s : string) : option (Q * string) :=
  if leading_zero s then None
  else
    let '(whole, n, rest) := read_digits 0 0 s in
    match rest with
    | String "." rest' =>
        let '(frac, m, rest'') := read_digits 0 0 rest' in
        if (n + m =? 0)%nat then None
        else Some (Qred (inject_Z whole + (frac # Pos.pow 10 (Pos.of_nat m)))%Q, rest'')
    | _ => if (n =? 0)%nat then None else Some (inject_Z whole, rest)
    end.

Definition operator (c : ascii) : option token :=
  if Ascii.eqb c "+" then Some TPlus
  else if Ascii.eqb c "-" then Some TMinus
  else if Ascii.eqb c "*" then Some TStar
  else if Ascii.eqb c "/" then Some TSlash
  else if Ascii.eqb c "(" then Some TLParen
  else if Ascii.eqb c ")" then Some TRParen
  else None.

(** Two operator characters side by side that JavaScript reads as one
    token or as a comment. *)
Definition fused (c : ascii) (rest : string) : bool :=
  match rest with
  | String d _ =>
      (Ascii.eqb c "+" && Ascii.eqb d "+") || (Ascii.eqb c "-" && Ascii.eqb d "-")
      || (Ascii.eqb c "*" && Ascii.eqb d "*") || (Ascii.eqb c "/" && Ascii.eqb d "/")
      || (Ascii.eqb c "/" && Ascii.eqb d "*")
  | EmptyString => false
  end.

Fixpoint tokenize (fuel : nat) (s : string) : option (list token) :=
  match fuel with
  | O => match s with EmptyString => Some [] | _ => None end
  | S fuel' =>
      match s with
      | EmptyString => Some []
      | String c rest =>
          if Ascii.eqb c " " || Ascii.eqb c (byte 9) then tokenize fuel' rest
          else if is_digit c || Ascii.eqb c "." then
            match read_number s with
            | Some (q, rest') => option_map (cons (TNum q)) (tokenize fuel' rest')
            | None => None
            end
          else if fused c rest then None
          else
            match operator c with
            | Some t => option_map (cons t) (tokenize fuel' rest)
            | None => None
            end
      end
  end.

(** *** Recursive descent *)

Inductive mode : Type :=
| Sum | SumRest (acc : JSNumber)
| Product | ProductRest (acc : JSNumber)
| Unary.

Fixpoint parse (fuel : nat) (m : mode) (ts : list token)
  : option (JSNumber * list token) :=
  match fuel with
  | O => None
  | S fuel' =>
      match m with
      | Sum =>
          match parse fuel' Product ts with
          | Some (v, rest) => parse fuel' (SumRest v) rest
          | None => None
          end
      | SumRest acc =>
          match ts with
          | TPlus :: rest =>
              match parse fuel' Product rest with
              | Some (v, rest') => parse fuel' (SumRest (add acc v)) rest'
              | None => None
              end
          | TMinus :: rest =>
              match parse fuel' Product rest with
              | Some (v, rest') => parse fuel' (SumRest (add acc (neg v))) rest'
              | None => None
              end
          | _ => Some (acc, ts)
          end
      | Product =>
          match parse fuel' Unary ts with
          | Some (v, rest) => parse fuel' (ProductRest v) rest
          | None => None
          end
      | ProductRest acc =>
          match ts with
          | TStar :: rest =>
              match parse fuel' Unary rest with
              | Some (v, rest') => parse fuel' (ProductRest (mul acc v)) rest'
              | None => None
              end
          | TSlash :: rest =>
              match parse fuel' Unary rest with
              | Some (v, rest') => parse fuel' (ProductRest (div acc v)) rest'
              | None => None
              end
          | _ => Some (acc, ts)
          end
      | Unary =>
          match ts with
          | TMinus :: rest =>
              match parse fuel' Unary rest with
              | Some (v, rest') => Some (neg v, rest')
              | None => None
              end
          | TPlus :: rest => parse fuel' Unary rest
          | TNum q :: rest => Some (Finite q, rest)
          | TLParen :: rest =>
              match parse fuel' Sum rest with
              | Some (v, TRParen :: rest') => Some (v, rest')
              | _ => None
              end
          | _ => None
          end
      end
  end.

Definition evaluate_tokens (ts : list token) : Completion JSValue :=
  match parse (8 * List.length ts + 8) Sum ts with
  | Some (v, []) => Normal (VNumber v)
  | _ => Throw (SyntaxError "Unexpected token")
  end.

(** [eval(text)]: an empty program has no value. *)
Definition eval (text : string) : Completion JSValue :=
  match tokenize (String.length text) text with
  | Some [] => Normal VUndefined
  | Some ts => evaluate_tokens ts
  | None => Throw (SyntaxError "Invalid or unexpected token")
  end.

(** [Function(body)()] for a body of the form the SDK server builds:
    the directive and [return (expression)]. *)
Definition Function_call (body : string) : Completion JSValue :=
  match strip_prefix (String (byte 34) "use strict" ++ String (byte 34) "; return ") body with
  | Some expression =>
      match tokenize (String.length expression) expression with
      | Some ts => evaluate_tokens ts
      | None => Throw (SyntaxError "Invalid or unexpected token")
      end
  | None => Throw (SyntaxError "Unexpected token")
  end.

(** *** Numbers as text *)

(** The digits of [r / d] after the decimal point, as long as the
    expansion goes on, at most [fuel] of them. *)
Fixpoint fraction_digits (fuel : nat) (r d : Z) : string :=
  match fuel with
  | O => EmptyString
  | S fuel' =>
      if (r =? 0)%Z then EmptyString
      else
        String (ascii_of_nat (48 + Z.to_nat ((10 * r) / d)))
               (fraction_digits fuel' ((10 * r) mod d) d)
  end.

Definition Q_to_string (q : Q) : string :=
  let n := Qnum q in
  let d := Zpos (Qden q) in
  let a := Z.abs n in
  let whole := Z_to_string (a / d) in
  let body :=
    if (a mod d =? 0)%Z then whole
    else whole ++ "." ++ fraction_digits 17 (a mod d) d in
  if (n <? 0)%Z then "-" ++ body else body.

(** *** JSON texts *)

Definition json_space (c : ascii) : bool :=
  existsb (Ascii.eqb c) [" "%char; byte 9; byte 10; byte 13].

Fixpoint skip_json_space (s : string) : string :=
  match s with
  | String c rest => if json_space c then skip_json_space rest else s
  | EmptyString => s
  end.

Definition unescape (c : ascii) : option ascii :=
  if Ascii.eqb c (byte 34) then Some (byte 34)
  else if Ascii.eqb c "\" then Some "\"%char
  else if Ascii.eqb c "/" then Some "/"%char
  else if Ascii.eqb c "n" then Some (byte 10)
  else if Ascii.eqb c "t" then Some (byte 9)
  else if Ascii.eqb c "r" then Some (byte 13)
  else if Ascii.eqb c "b" then Some (byte 8)
  else if Ascii.eqb c "f" then Some (byte 12)
  else None.

(** The characters of a string literal after its opening quote, and
    what follows the closing quote. *)
Fixpoint string_body (s : string) : option (string * string) :=
  match s with
  | EmptyString => None
  | String c rest =>
      if Ascii.eqb c (byte 34) then Some (EmptyString, rest)
      else if Ascii.eqb c "\" then
        match rest with
        | String e rest' =>
            match unescape e, string_body rest' with
            | Some ch, Some (body, after) => Some (String ch body, after)
            | _, _ => None
            end
        | EmptyString => None
        end
      else if (nat_of_ascii c <? 32)%nat then None
      else
        match string_body rest with
        | Some (body, after) => Some (String c body, after)
        | None => None
        end
  end.

Definition json_number (s : string) : option (json * string) :=
  let '(negative, digits) :=
    match s with
    | String "-" rest => (true, rest)
    | _ => (false, s)
    end in
  if leading_zero digits then None
  else
    let '(whole, n, rest) := read_digits 0 0 digits in
    if (n =? 0)%nat then None
    else
      let '(q, after) :=
        match rest with
        | String "." rest' =>
            let '(frac, m, rest'') := read_digits 0 0 rest' in
            if (m =? 0)%nat then (None, rest)
            else (Some (Qred (inject_Z whole + (frac # Pos.pow 10 (Pos.of_nat m)))%Q),
                  rest'')
        | _ => (Some (inject_Z whole), rest)
        end in
      match q with
      | Some v => Some (JNumber (Finite (if negative then Qred (- v)%Q else v)), after)
      | None => None
      end.

Inductive json_mode : Type :=
| Value
| Elements (acc : list json)
| Members (acc : list (string * json)).

Fixpoint parse_json (fuel : nat) (m : json_mode) (s : string) : option (json * string) :=
  match fuel with
  | O => None
  | S fuel' =>
      let s := skip_json_space s in
      match m with
      | Value =>
          match s with
          | String c rest =>
              if Ascii.eqb c (byte 34) then
                match string_body rest with
                | Some (body, after) => Some (JString body, after)
                | None => None
                end
              else if Ascii.eqb c "[" then
                match skip_json_space rest with
                | String "]" after => Some (JArray [], after)
                | _ => parse_json fuel' (Elements []) rest
                end
              else if Ascii.eqb c "{" then
                match skip_json_space rest with
                | String "}" after => Some (JObject [], after)
                | _ => parse_json fuel' (Members []) rest
                end
              else if is_digit c || Ascii.eqb c "-" then json_number s
              else
                match strip_prefix "null" s, strip_prefix "true" s, strip_prefix "false" s with
                | Some after, _, _ => Some (JNull, after)
                | _, Some after, _ => Some (JBool true, after)
                | _, _, Some after => Some (JBool false, after)
                | _, _, _ => None
                end
          | EmptyString => None
          end
      | Elements acc =>
          match parse_json fuel' Value s with
          | Some (v, rest) =>
              match skip_json_space rest with
              | String "," rest' => parse_json fuel' (Elements (acc ++ [v])%list) rest'
              | String "]" after => Some (JArray (acc ++ [v])%list, after)
              | _ => None
              end
          | None => None
          end
      | Members acc =>
          match s with
          | String c rest =>
              if Ascii.eqb c (byte 34) then
                match string_body rest with
                | Some (key, rest') =>
                    match skip_json_space rest' with
                    | String ":" rest'' =>
                        match parse_json fuel' Value rest'' with
                        | Some (v, rest3) =>
                            match skip_json_space rest3 with
                            | String "," rest4 =>
                                parse_json fuel' (Members (acc ++ [(key, v)])%list) rest4
                            | String "}" after =>
                                Some (JObject (acc ++ [(key, v)])%list, after)
                            | _ => None
                            end
                        | None => None
                        end
                    | _ => None
                    end
                | None => None
                end
              else None
          | EmptyString => None
          end
      end
  end.

Definition parse_text (text : string) : Completion json :=
  match parse_json (S (String.length text)) Value text with
  | Some (v, rest) =>
      match skip_json_space rest with
      | EmptyString => Normal v
      | _ => Throw (SyntaxError "Unexpected non-whitespace character after JSON")
      end
  | None => Throw (SyntaxError "Unexpected token in JSON")
  end.

(** *** JSON.stringify with an indentation of two spaces *)

Definition hex_digit (n : nat) : ascii :=
  if (n <? 10)%nat then ascii_of_nat (48 + n) else ascii_of_nat (87 + n).

Definition escape_char (c : ascii) : string :=
  let n := nat_of_ascii c in
  if Ascii.eqb c (byte 34) then String "\" (String (byte 34) EmptyString)
  else if Ascii.eqb c "\" then "\\"
  else if (n =? 8)%nat then "\b"
  else if (n =? 9)%nat then "\t"
  else if (n =? 10)%nat then "\n"
  else if (n =? 12)%nat then "\f"
  else if (n =? 13)%nat then "\r"
  else if (n <? 32)%nat then
    "\u00" ++ String (hex_digit (n / 16)) (String (hex_digit (n mod 16)) EmptyString)
  else String c EmptyString.

Fixpoint escape (s : string) : string :=
  match s with
  | EmptyString => EmptyString
  | String c rest => escape_char c ++ escape rest
  end.

Definition quoted (s : string) : string :=
  String (byte 34) (escape s) ++ String (byte 34) EmptyString.

Fixpoint join (sep : string) (parts : list string) : string :=
  match parts with
  | [] => EmptyString
  | [x] => x
  | x :: rest => x ++ sep ++ join sep rest
  end.

Definition number_text (n : JSNumber) : string :=
  match n with
  | Finite q => Q_to_string q
  | _ => "null"
  end.

Fixpoint stringify (indent : string) (v : json) : string :=
  let inner := indent ++ "  " in
  let newline := String LF EmptyString in
  match v with
  | JNull => "null"
  | JBool true => "true"
  | JBool false => "false"
  | JNumber n => number_text n
  | JString s => quoted s
  | JArray [] => "[]"
  | JArray items =>
      "[" ++ newline
        ++ join ("," ++ newline) (map (fun x => inner ++ stringify inner x) items)
        ++ newline ++ indent ++ "]"
  | JObject [] => "{}"
  | JObject fields =>
      "{" ++ newline
        ++ join ("," ++ newline)
             (map (fun kv => inner ++ quoted (fst kv) ++ ": " ++ stringify inner (snd kv))
                  fields)
        ++ newline ++ indent ++ "}"
  end.

(** *** ToString on arrays and objects *)

Definition cannot_convert : Thrown :=
  TypeError "Cannot convert object to primitive value".

Fixpoint sequence (cs : list (Completion string)) : Completion (list string) :=
  match cs with
  | [] => Normal []
  | c :: rest =>
      x <- c ;;
      xs <- sequence rest ;;
      Normal (x :: xs)
  end.

Fixpoint object_text (v : json) : Completion string :=
  match v with
  | JNull => Normal ""
  | JBool true => Normal "true"
  | JBool false => Normal "false"
  | JNumber (Finite q) => Normal (Q_to_string q)
  | JNumber PosInfinity => Normal "Infinity"
  | JNumber NegInfinity => Normal "-Infinity"
  | JNumber NaN => Normal "NaN"
  | JString s => Normal s
  | JArray items =>
      parts <- sequence (map object_text items) ;;
      Normal (join "," parts)
  | JObject fields =>
      match lookup_field "toString" fields with
      | Some _ => Throw cannot_convert
      | None => Normal "[object Object]"
      end
  end.

Definition runtime : Runtime :=
  {| js_eval := eval;
     js_Function_call := Function_call;
     JSON_parse := parse_text;
     JSON_stringify := stringify EmptyString;
     Number_toString := Q_to_string;
     Object_toString := object_text;
     Date_now_ISO := "2025-01-01T00:00:00.000Z";
     process_uptime := Finite (3 # 2) |}.
End Reference.

(** ** Requests used in the statements *)

(** The envelope of a [tools/call] request. *)
Definition tool_call (id : json) (tool : string) (arguments : jsany) : json :=
  JObject
    [("jsonrpc", JString "2.0"); ("id", id); ("method", JString "tools/call");
     ("params",
       JObject (("name", JString tool)
                :: match arguments with
                   | Some a => [("arguments", a)]
                   | None => []
                   end))].

(** [request.params] of a call of [tool]. *)
Definition call_params (tool : string) (arguments : jsany) : jsany :=
  Some (JObject (("name", JString tool)
                 :: match arguments with
                    | Some a => [("arguments", a)]
                    | None => []
                    end)).

Definition expression_args (e : string) : jsany :=
  Some (JObject [("expression", JString e)]).

(** The bytes that can occur in a text made of allowed characters. *)
Fixpoint occurs (c : ascii) (s : string) : bool :=
  match s with
  | EmptyString => false
  | String d rest => Ascii.eqb c d || occurs c rest
  end.

Definition allowed_byte (c : ascii) : bool :=
  is_arith_char c || existsb (occurs c) white_space.

(** Exactly one of [result] and [error] is present. *)
Definition exactly_one (r : MCPResponse) : Prop :=
  xorb (has_result r) (has_error r) = true.

(** A computation that, when it returns, returns a well-formed envelope
    for the request id [i]. *)
Definition answers (i : jsany) (c : Completion MCPResponse) : Prop :=
  match c with
  | Normal r => exactly_one r /\ id r = i
  | Throw _ => True
  end.

(** Every line of [lines] is free of newlines, as the pieces of a split
    are. *)
Definition newline_free (lines : list string) : Prop :=
  Forall (fun l => no_newline l = true) lines.

(** The token the guarded middleware keeps for a header: what follows
    [Bearer] and the white space after it, when that is not empty. *)
Definition bearer_token (authHeader : option string) : option string :=
  match authHeader with
  | None => None
  | Some header =>
      match strip_prefix_ci "Bearer" header with
      | Some rest =>
          match leading_space rest with
          | Some _ =>
              let token := skip_space rest in
              if String.eqb token "" then None else Some token
          | None => None
          end
      | None => None
      end
  end.

(** The profile at [key] when [key] is a key of the table, and the entry
    stored under the literal key [default] otherwise. *)
Definition stored_or_default (key : string) : ProfileData :=
  match own_profile key profiles with
  | Some p => p
  | None => sarah
  end.

(** ** Sample inputs *)

Definition dq : string := String (byte 34) EmptyString.
Definition str (s : string) : string := dq ++ s ++ dq.
Definition member (k v : string) : string := str k ++ ":" ++ v.

(** [{"jsonrpc":"2.0","id":7,"method":"initialize"}] *)
Definition initialize_line : string :=
  "{" ++ member "jsonrpc" (str "2.0") ++ "," ++ member "id" "7" ++ ","
    ++ member "method" (str "initialize") ++ "}".

(** [{"jsonrpc":"2.0","id":"b","method":"no/such"}] *)
Definition unknown_method_line : string :=
  "{" ++ member "jsonrpc" (str "2.0") ++ "," ++ member "id" (str "b") ++ ","
    ++ member "method" (str "no/such") ++ "}".

(** A line that is not JSON. *)
Definition malformed_line : string := "{bad".

Definition sample_config : Standalone.Config := Standalone.configure None None None.

(** The server configured with [DEFAULT_PROFILE_ID=admin]. *)
Definition admin_config : Standalone.Config :=
  Standalone.configure None None (Some "admin").

(** A stand-in for the HTML template on concrete runs. *)
Definition sample_html (p : ProfileData) : string :=
  "<title>Profile - " ++ name p ++ "</title>".

(** A [tools/call] request that has no [params]. *)
Definition call_without_params : json :=
  JObject [("id", JNumber (Finite 7)); ("method", JString "tools/call")].

(** A [tools/list] request with the numeric id 7. *)
Definition list_request : json :=
  JObject [("id", JNumber (Finite 7)); ("method", JString "tools/list")].

(** A [resources/read] request that has no [params]. *)
Definition read_without_params : json :=
  JObject [("jsonrpc", JString "2.0"); ("id", JString "abc");
           ("method", JString "resources/read")].

Definition empty_text : jsany := Some (JObject [("text", JString "")]).
Definition unknown_profile : jsany := Some (JObject [("profileId", JString "nonexistent-id")]).
Definition constructor_profile : jsany := Some (JObject [("profileId", JString "constructor")]).
Definition one : jsany := Some (JNumber (Finite 1)).

(** A call of echo whose [text] is an object that cannot be converted to
    a string, and a read of a resource that does not exist. *)
Definition odd_call : json :=
  JObject [("name", JString "echo");
           ("arguments", JObject [("text", JObject [("toString", JNull)])])].
Definition odd_read : json := JObject [("uri", JString "server://nothing")].

(** The error of an envelope, if it has one, is a routing error (-32601 or
    -32602) without data, or the internal error -32603 with data. *)
Definition coded (r : MCPResponse) : Prop :=
  match error r with
  | None => True
  | Some e =>
      ((code e = -32601 \/ code e = -32602) /\ data e = None)
      \/ (code e = -32603 /\ data e <> None)
  end.

Definition graded (c : Completion MCPResponse) : Prop :=
  match c with
  | Normal r => coded r
  | Throw _ => True
  end.

(** A request with a method and, possibly, params. *)
Definition request_of (id : json) (method : string) (params : jsany) : json :=
  JObject (("jsonrpc", JString "2.0") :: ("id", id) :: ("method", JString method)
           :: match params with
              | Some p => [("params", p)]
              | None => []
              end).

(** The chunks of a stream, end to end. *)
Definition whole (chunks : list string) : string :=
  fold_right String.append EmptyString chunks.

(** The arguments of a get_profile call for an optional id. *)
Definition profile_args (id : option string) : jsany :=
  Some (JObject match id with
                | Some s => [("profileId", JString s)]
                | None => []
                end).

(** The id a request for [id] is looked up under. *)
Definition looked_up (configured : string) (id : option string) : string :=
  match id with
  | Some s => if String.eqb s "" then configured else s
  | None => configured
  end.

Definition authentication_required : Thrown :=
  PlainError "Authentication required. Please log in via OAuth.".

(** A token of three parts. *)
Definition jwt (header payload signature : string) : string :=
  header ++ String "." (payload ++ String "." signature).

(** What the catch of the tool [get-user-profile] makes of an error. *)
Definition profile_failure (error : Thrown) : Thrown :=
  if Carousel.is_abort error then PlainError "Request timed out" else error.

(** An ok response whose body is [data], and a response with a status
    that is not ok. *)
Definition ok_response (data : json) : Carousel.FetchResponse :=
  {| Carousel.response_ok := true; Carousel.response_status := 200;
     Carousel.response_text := Normal ""; Carousel.response_json := Normal data |}.

Definition refused_response (status : Z) : Carousel.FetchResponse :=
  {| Carousel.response_ok := false; Carousel.response_status := status;
     Carousel.response_text := Normal "Forbidden";
     Carousel.response_json := Throw (JsError "SyntaxError" "Unexpected token F in JSON") |}.

Definition signed_in : Carousel.Tokens :=
  {| Carousel.currentAccessToken := Some "abc"; Carousel.userAccessToken := Some "abc" |}.

(** * Properties *)

(** ** Strings *)

Lemma strip_prefix_app p s rest :
  strip_prefix p s = Some rest -> s = p ++ rest.
Proof.
  revert s; induction p as [|a p IH]; intros s H; simpl in *.
  - now inversion H.
  - destruct s as [|b s]; [discriminate|].
    destruct (Ascii.eqb a b) eqn:E; [|discriminate].
    apply Ascii.eqb_eq in E; subst b.
    now rewrite (IH _ H).
Qed.

Lemma first_match_app ws s w rest :
  first_match ws s = Some (w, rest) -> In w ws /\ s = w ++ rest.
Proof.
  induction ws as [|x ws IH]; simpl; [discriminate|].
  destruct (strip_prefix x s) eqn:E.
  - intros H; inversion H; subst; split; [now left | now apply strip_prefix_app].
  - intros H; destruct (IH H); split; [now right | assumption].
Qed.

Lemma white_space_nonempty w : In w white_space -> (1 <= String.length w)%nat.
Proof.
  intros H.
  assert (F : Forall (fun w => (1 <= String.length w)%nat) white_space)
    by (repeat constructor).
  rewrite Forall_forall in F; now apply F.
Qed.

Lemma string_length_app a b :
  String.length (a ++ b) = (String.length a + String.length b)%nat.
Proof. induction a; simpl; congruence. Qed.

Lemma leading_space_shape s w rest :
  leading_space s = Some (w, rest) ->
  s = w ++ rest /\ (1 <= String.length w)%nat
  /\ String.length s = (String.length w + String.length rest)%nat.
Proof.
  intros H; apply first_match_app in H as [Hin ->].
  repeat split; [now apply white_space_nonempty | apply string_length_app].
Qed.

Lemma sanitize_fuel_length n s :
  (String.length (sanitize_fuel n s) <= String.length s)%nat.
Proof.
  revert s; induction n as [|n IH]; intros s; simpl; [lia|].
  destruct s as [|c rest]; simpl; [lia|].
  destruct (leading_space (String c rest)) as [[w rest']|] eqn:E.
  - apply leading_space_shape in E as (_ & _ & E); simpl in E.
    rewrite string_length_app. specialize (IH rest'); lia.
  - destruct (is_arith_char c); simpl; specialize (IH rest); lia.
Qed.

Lemma sanitize_fuel_shorter n s :
  (String.length s <= n)%nat ->
  only_allowed_fuel n s = false ->
  (String.length (sanitize_fuel n s) < String.length s)%nat.
Proof.
  revert s; induction n as [|n IH]; intros s Hn H; simpl in *.
  - destruct s; [discriminate | simpl in Hn; lia].
  - destruct s as [|c rest]; [discriminate|].
    destruct (leading_space (String c rest)) as [[w rest']|] eqn:E.
    + apply leading_space_shape in E as (_ & Hw & E); simpl in *.
      assert (Hlen : (String.length rest' <= n)%nat) by lia.
      specialize (IH rest' Hlen H).
      rewrite string_length_app. lia.
    + destruct (is_arith_char c); simpl in *.
      * assert (Hlen : (String.length rest <= n)%nat) by lia.
        specialize (IH rest Hlen H). lia.
      * pose proof (sanitize_fuel_length n rest). lia.
Qed.

Lemma sanitize_fuel_fixed n s :
  (String.length s <= n)%nat ->
  only_allowed_fuel n s = true ->
  sanitize_fuel n s = s.
Proof.
  revert s; induction n as [|n IH]; intros s Hn H; simpl in *.
  - now destruct s.
  - destruct s as [|c rest]; [reflexivity|].
    destruct (leading_space (String c rest)) as [[w rest']|] eqn:E.
    + apply leading_space_shape in E as (E & Hw & El); simpl in *.
      assert (Hlen : (String.length rest' <= n)%nat) by lia.
      now rewrite (IH rest' Hlen H).
    + destruct (is_arith_char c); [|discriminate]. simpl in *.
      rewrite IH; [reflexivity | lia | assumption].
Qed.

(** The expression survives the regular expression unchanged exactly when
    all its characters are in the allow-list. *)
Lemma sanitize_identity s : String.eqb (sanitize s) s = only_allowed s.
Proof.
  unfold sanitize, only_allowed.
  destruct (only_allowed_fuel (String.length s) s) eqn:E.
  - rewrite sanitize_fuel_fixed by auto. apply String.eqb_refl.
  - apply String.eqb_neq. intros Heq.
    pose proof (sanitize_fuel_shorter _ s (le_n _) E) as Hlt.
    rewrite Heq in Hlt. lia.
Qed.

(** The regular expression on two inputs. *)
Lemma sanitize_example : sanitize "2 + 3a * x4" = "2 + 3 * 4" /\ sanitize "__proto__" = "".
Proof. split; reflexivity. Qed.

Lemma occurs_app c a b : occurs c (a ++ b) = occurs c a || occurs c b.
Proof. induction a; simpl; [reflexivity|]. now rewrite IHa, orb_assoc. Qed.

Lemma only_allowed_bytes n s c :
  only_allowed_fuel n s = true -> occurs c s = true -> allowed_byte c = true.
Proof.
  revert s; induction n as [|n IH]; intros s H Hc; simpl in H.
  - destruct s; [discriminate Hc | discriminate H].
  - destruct s as [|d rest]; [discriminate Hc|].
    destruct (leading_space (String d rest)) as [[w rest']|] eqn:E.
    + apply first_match_app in E as [Hin E].
      rewrite E, occurs_app in Hc.
      apply orb_true_iff in Hc as [Hc|Hc]; [|now apply (IH rest')].
      unfold allowed_byte. apply orb_true_iff; right.
      apply existsb_exists. now exists w.
    + apply andb_true_iff in H as [Hd H]. simpl in Hc.
      apply orb_true_iff in Hc as [Hc|Hc]; [|now apply (IH rest)].
      apply Ascii.eqb_eq in Hc; subst d.
      unfold allowed_byte. now rewrite Hd.
Qed.

Lemma includes_occurs s c p :
  includes s (String c p) = true -> occurs c s = true.
Proof.
  induction s as [|d s IH]; simpl.
  - discriminate.
  - destruct (Ascii.eqb c d) eqn:E; [reflexivity|].
    simpl. intros H. now apply IH.
Qed.

(** The "additional safety check" of the SDK server is unreachable: a text
    that passed the allow-list has no underscore and no letter. *)
Lemma safety_check_dead s :
  only_allowed s = true ->
  includes s "__" || includes s "constructor" = false.
Proof.
  intros H. apply orb_false_iff; split.
  - destruct (includes s "__") eqn:E; [|reflexivity].
    apply includes_occurs in E.
    now pose proof (only_allowed_bytes _ _ _ H E).
  - destruct (includes s "constructor") eqn:E; [|reflexivity].
    apply includes_occurs in E.
    now pose proof (only_allowed_bytes _ _ _ H E).
Qed.

(** ** The calculate tool *)

Section Calculate.
Context {RT : Runtime}.

(** The simple server gives whatever is left of the expression to
    [eval], whether or not characters were removed. *)
Lemma simple_calculate_always_evaluates (e : string) (id : jsany) :
  e <> "" ->
  Simple.calculate (expression_args e) id =
    match js_eval (sanitize e) with
    | Normal v =>
        Normal (success id (ContentResult [TextBlock (e ++ " = " ++ value_to_string v)]))
    | Throw t =>
        Normal (failure id (-32603) "Calculation error" (Some (error_message t)))
    end.
Proof.
  intros He. unfold Simple.calculate, expression_args, js_or. simpl.
  apply String.eqb_neq in He. rewrite He. simpl.
  now destruct (js_eval (sanitize e)).
Qed.

(** The SDK server refuses an expression with a character outside the
    allow-list; the refusal does not depend on the engine: nothing was
    evaluated. *)
Lemma sdk_calculate_rejects_foreign_characters (args : jsany) (e : string) :
  opt_prop args "expression" = Some (JString e) ->
  only_allowed e = false ->
  Sdk.callTool (call_params "calculate" args) =
    Throw (McpError InternalError ("Calculation error: " ++ Sdk.invalid_characters)).
Proof.
  intros Harg Hbad.
  assert (Hne : String.eqb e "" = false).
  { destruct (String.eqb e "") eqn:E; [|reflexivity].
    apply String.eqb_eq in E; subst e. discriminate Hbad. }
  unfold Sdk.callTool, call_params.
  assert (Hargs : get_prop (JObject (("name", JString "calculate")
                     :: match args with Some a => [("arguments", a)] | None => [] end))
                    "arguments" = args /\
                  get_prop (JObject (("name", JString "calculate")
                     :: match args with Some a => [("arguments", a)] | None => [] end))
                    "name" = Some (JString "calculate")).
  { destruct args; simpl; auto. }
  simpl destructure. cbn [bind]. destruct Hargs as [-> ->].
  cbn [is_string String.eqb Ascii.eqb Bool.eqb].
  unfold Sdk.calculate. rewrite Harg. cbn [truthy]. rewrite Hne. cbn [negb].
  unfold Sdk.evaluate. cbv zeta. rewrite sanitize_identity, Hbad. reflexivity.
Qed.

(** A result of the SDK server's calculate always carries a finite
    number, the value of the expression under the [Function] constructor. *)
Lemma sdk_calculate_result_is_finite (args : jsany) (content : list ContentBlock) :
  Sdk.calculate args = Normal content ->
  exists e q,
    opt_prop args "expression" = Some (JString e)
    /\ js_Function_call (Sdk.function_body e) = Normal (VNumber (Finite q))
    /\ content = [TextBlock (e ++ " = " ++ Number_toString q)].
Proof.
  unfold Sdk.calculate.
  destruct (negb (truthy (opt_prop args "expression"))); [discriminate|].
  unfold Sdk.evaluate.
  destruct (opt_prop args "expression") as [[| | |e| |]|]; try discriminate.
  cbv zeta. rewrite sanitize_identity.
  destruct (only_allowed e) eqn:Hok; [|discriminate]. cbn [negb].
  assert (Hs : sanitize e = e).
  { apply String.eqb_eq. now rewrite sanitize_identity. }
  rewrite Hs, safety_check_dead by assumption.
  destruct (js_Function_call (Sdk.function_body e)) as [v|t] eqn:Hcall; [|discriminate].
  cbn [bind]. destruct v as [|[q| | |]|src]; try discriminate.
  cbn [Number_isFinite negb value_to_string number_to_string].
  intros H; inversion H. now exists e, q.
Qed.

(** When the expression evaluates to a value that is not a finite number
    (division by zero among others) the SDK server throws. *)
Lemma sdk_calculate_rejects_non_finite (args : jsany) (e : string) (v : JSValue) :
  opt_prop args "expression" = Some (JString e) ->
  e <> "" ->
  only_allowed e = true ->
  js_Function_call (Sdk.function_body e) = Normal v ->
  Number_isFinite v = false ->
  Sdk.calculate args =
    Throw (McpError InternalError ("Calculation error: " ++ Sdk.not_finite)).
Proof.
  intros Harg Hne Hok Hv Hfin.
  apply String.eqb_neq in Hne.
  unfold Sdk.calculate. rewrite Harg. cbn [truthy]. rewrite Hne. cbn [negb].
  unfold Sdk.evaluate. cbv zeta. rewrite sanitize_identity, Hok. cbn [negb].
  assert (Hs : sanitize e = e).
  { apply String.eqb_eq. now rewrite sanitize_identity. }
  rewrite Hs, safety_check_dead by assumption.
  rewrite Hv. cbn [bind]. rewrite Hfin. reflexivity.
Qed.

(** A [tools/call] of calculate reaches [eval] through the dispatcher of
    the simple server, whatever the expression. *)
Lemma simple_dispatches_calculate (id : json) (e : string) :
  e <> "" ->
  Simple.handleRequest (tool_call id "calculate" (expression_args e)) =
    match js_eval (sanitize e) with
    | Normal v =>
        Normal (success (Some id)
                  (ContentResult [TextBlock (e ++ " = " ++ value_to_string v)]))
    | Throw t =>
        Normal (failure (Some id) (-32603) "Calculation error" (Some (error_message t)))
    end.
Proof.
  intros He.
  unfold Simple.handleRequest, tool_call. cbn [destructure bind].
  change (get_prop _ "method") with (Some (JString "tools/call")).
  change (get_prop _ "id") with (Some id).
  unfold Simple.route. cbn [is_string String.eqb Ascii.eqb Bool.eqb].
  unfold Simple.handleToolCall.
  change (get_prop _ "params")
    with (Some (JObject [("name", JString "calculate");
                         ("arguments", JObject [("expression", JString e)])])).
  cbn [destructure bind].
  change (get_prop _ "name") with (Some (JString "calculate")).
  change (get_prop _ "arguments") with (expression_args e).
  cbn [is_string String.eqb Ascii.eqb Bool.eqb].
  rewrite simple_calculate_always_evaluates by assumption.
  now destruct (js_eval (sanitize e)).
Qed.

(** C1 (simple server, failing input).  A [tools/call] of calculate with
    the expression [__proto__], which has no allowed character at all: the
    simple server deletes the characters, evaluates the empty text that is
    left and answers with a result envelope, where the specification
    requires an error and no evaluation. *)
Theorem simple_calculate_accepts_foreign_characters (id : json) :
  js_eval "" = Normal VUndefined ->
  only_allowed "__proto__" = false
  /\ Simple.handleRequest
       (tool_call id "calculate" (expression_args "__proto__"))
     = Normal (success (Some id) (ContentResult [TextBlock "__proto__ = undefined"])).
Proof.
  intros Hev. split; [reflexivity|].
  rewrite simple_dispatches_calculate by discriminate.
  change (sanitize "__proto__") with "". now rewrite Hev.
Qed.

(** C2 (simple server, failing input).  A [tools/call] of calculate with
    the expression [1/0]: the simple server has no finiteness check and
    answers with a result envelope that carries [Infinity]. *)
Theorem simple_calculate_returns_infinity (id : json) :
  js_eval "1/0" = Normal (VNumber PosInfinity) ->
  Simple.handleRequest (tool_call id "calculate" (expression_args "1/0"))
  = Normal (success (Some id) (ContentResult [TextBlock "1/0 = Infinity"])).
Proof.
  intros Hev.
  rewrite simple_dispatches_calculate by discriminate.
  change (sanitize "1/0") with "1/0". now rewrite Hev.
Qed.
End Calculate.

(** ** The dispatcher *)

Lemma answers_success i r : answers i (Normal (success i r)).
Proof. now split. Qed.

Lemma answers_failure i c m d : answers i (Normal (failure i c m d)).
Proof. now split. Qed.

Lemma answers_throw i t : answers i (Throw t).
Proof. exact I. Qed.

Lemma answers_bind {A} i (c : Completion A) k :
  (forall a, answers i (k a)) -> answers i (bind c k).
Proof. intros H; destruct c; simpl; auto. Qed.

Lemma answers_try_catch i c h :
  answers i c -> (forall t, answers i (h t)) -> answers i (try_catch c h).
Proof. intros Hc Hh; destruct c; simpl; auto. Qed.

Create HintDb envelope.
#[local] Hint Resolve answers_success answers_failure answers_throw : envelope.

Ltac envelope :=
  repeat first
    [ apply answers_bind; intros
    | apply answers_try_catch; [|intros]
    | match goal with
      | |- answers _ (if ?b then _ else _) => destruct b
      | |- answers _ (match ?x with _ => _ end) => destruct x
      end
    | solve [auto with envelope] ].

(** The catch-all of [handleRequest] turns a well-behaved body into a
    response. *)
Lemma catch_all_responds i body :
  answers i body ->
  exists r,
    try_catch body
      (fun error =>
         Normal (failure i (-32603) "Internal error" (Some (error_message error))))
    = Normal r
    /\ exactly_one r /\ id r = i.
Proof.
  destruct body as [r|t]; simpl.
  - intros [H1 H2]. now exists r.
  - intros _. eexists; repeat split.
Qed.

Section Dispatcher.
Context {RT : Runtime}.
Variable config : Standalone.Config.
Variable generateProfileHTML : ProfileData -> string.

Lemma simple_route_answers method params i :
  answers i (Simple.route method params i).
Proof.
  unfold Simple.route, Simple.handleToolCall, Simple.handleResourceRead,
    Simple.echo, Simple.get_current_time, Simple.calculate.
  envelope.
Qed.

Lemma standalone_route_answers method params i :
  answers i (Standalone.route config generateProfileHTML method params i).
Proof.
  unfold Standalone.route, Standalone.handleToolCall, Standalone.handleResourceRead,
    Standalone.handleGetProfile.
  envelope.
Qed.

Lemma simple_handleRequest_responds request :
  request <> JNull ->
  exists r,
    Simple.handleRequest request = Normal r
    /\ exactly_one r /\ id r = get_prop request "id".
Proof.
  intros Hnull. unfold Simple.handleRequest.
  destruct request; try congruence; cbn [destructure bind];
    apply catch_all_responds, simple_route_answers.
Qed.

Lemma standalone_handleRequest_responds request :
  request <> JNull ->
  exists r,
    Standalone.handleRequest config generateProfileHTML request = Normal r
    /\ exactly_one r /\ id r = get_prop request "id".
Proof.
  intros Hnull. unfold Standalone.handleRequest.
  destruct request; try congruence; cbn [destructure bind];
    apply catch_all_responds, standalone_route_answers.
Qed.

(** C3.  Whatever the request (any method, known or not, any params, any
    failure inside a handler), the dispatcher of the simple server and
    the dispatcher of the standalone profile server return an envelope
    with exactly one of [result] and [error]. *)
Theorem response_has_exactly_one_of_result_and_error (request : json) :
  request <> JNull ->
  (exists r, Simple.handleRequest request = Normal r /\ exactly_one r)
  /\ (exists r,
        Standalone.handleRequest config generateProfileHTML request = Normal r
        /\ exactly_one r).
Proof.
  intros Hnull. split.
  - destruct (simple_handleRequest_responds request Hnull) as (r & H & Hone & _).
    now exists r.
  - destruct (standalone_handleRequest_responds request Hnull) as (r & H & Hone & _).
    now exists r.
Qed.

(** C4.  The id of the response is the id of the request, the same JSON
    value: a number stays a number, a string a string, null stays null. *)
Theorem response_echoes_request_id (request i : json) :
  get_prop request "id" = Some i ->
  (exists r, Simple.handleRequest request = Normal r /\ id r = Some i)
  /\ (exists r,
        Standalone.handleRequest config generateProfileHTML request = Normal r
        /\ id r = Some i).
Proof.
  intros Hid.
  assert (Hnull : request <> JNull) by (intros ->; discriminate Hid).
  split.
  - destruct (simple_handleRequest_responds request Hnull) as (r & H & _ & Hr).
    exists r. now rewrite <- Hid.
  - destruct (standalone_handleRequest_responds request Hnull) as (r & H & _ & Hr).
    exists r. now rewrite <- Hid.
Qed.

(** C9.  A [tools/call] or [resources/read] request without [params]:
    destructuring the missing params throws a TypeError inside the [try]
    of [handleRequest], and the catch-all answers -32603 "Internal error"
    with the TypeError's message as [data]. *)
Theorem missing_params_is_internal_error (request : json) (m : string) :
  get_prop request "method" = Some (JString m) ->
  m = "tools/call" \/ m = "resources/read" ->
  get_prop request "params" = None ->
  Simple.handleRequest request =
    Normal (failure (get_prop request "id") (-32603) "Internal error"
              (Some ("Cannot destructure property '"
                       ++ (if String.eqb m "tools/call" then "name" else "uri")
                       ++ "' of 'params' as it is undefined."))).
Proof.
  intros Hm Hcase Hparams.
  destruct request; try discriminate Hm.
  unfold Simple.handleRequest. cbn [destructure bind].
  rewrite Hm, Hparams.
  destruct Hcase; subst m; reflexivity.
Qed.
End Dispatcher.

(** ** The stdio transport *)

Lemma split_lines_cons s : exists l ls, split_lines s = l :: ls.
Proof.
  induction s as [|c s (l & ls & IH)]; simpl.
  - now exists EmptyString, [].
  - destruct (Ascii.eqb c LF); [now eexists; eexists|].
    rewrite IH. now eexists; eexists.
Qed.

Lemma split_lines_partial s : no_newline s = true -> split_lines s = [s].
Proof.
  induction s as [|c s IH]; simpl; [reflexivity|].
  intros H; apply andb_true_iff in H as [Hc Hs].
  apply negb_true_iff in Hc. now rewrite Hc, IH.
Qed.

Lemma split_lines_line l rest :
  no_newline l = true ->
  split_lines (l ++ String LF rest) = l :: split_lines rest.
Proof.
  induction l as [|c l IH]; simpl.
  - intros _. reflexivity.
  - intros H; apply andb_true_iff in H as [Hc Hl].
    apply negb_true_iff in Hc. now rewrite Hc, IH.
Qed.

Lemma string_app_assoc (a b c : string) : (a ++ b) ++ c = a ++ (b ++ c).
Proof. induction a; simpl; congruence. Qed.

Lemma split_unlines lines partial :
  newline_free lines ->
  no_newline partial = true ->
  split_lines (unlines lines ++ partial) = (lines ++ [partial])%list.
Proof.
  intros Hl Hp. induction Hl as [|l ls Hl _ IH]; simpl.
  - now apply split_lines_partial.
  - rewrite string_app_assoc. simpl. now rewrite split_lines_line, IH.
Qed.

Section StdioFacts.
Context {RT : Runtime}.
Variable handleRequest : json -> Completion MCPResponse.

Lemma process_lines_app a b :
  Stdio.process_lines handleRequest (a ++ b) =
    (Stdio.process_lines handleRequest a ++ Stdio.process_lines handleRequest b)%list.
Proof. apply flat_map_app. Qed.

(** A chunk of complete lines followed by the beginning of another:
    the lines are processed in order and the beginning is kept. *)
Lemma step_complete_lines lines partial :
  newline_free lines ->
  no_newline partial = true ->
  Stdio.step handleRequest (Stdio.Running "") (Stdio.StdinData (unlines lines ++ partial))
  = (Stdio.Running partial, Stdio.process_lines handleRequest lines).
Proof.
  intros Hl Hp. unfold Stdio.step, Stdio.on_data.
  change ("" ++ (unlines lines ++ partial)) with (unlines lines ++ partial).
  rewrite split_unlines by assumption.
  now rewrite last_last, removelast_last.
Qed.

Lemma malformed_line_response line t :
  is_blank line = false ->
  JSON_parse line = Throw t ->
  Stdio.process_line handleRequest line = [parse_error_response t].
Proof.
  intros Hb Hp. unfold Stdio.process_line, Stdio.respond.
  now rewrite Hb, Hp.
Qed.

(** A line that parses and that the dispatcher answers gets that
    answer. *)
Lemma wellformed_line_response line request response :
  is_blank line = false ->
  JSON_parse line = Normal request ->
  handleRequest request = Normal response ->
  Stdio.process_line handleRequest line = [response].
Proof.
  intros Hb Hp Hr. unfold Stdio.process_line, Stdio.respond.
  rewrite Hb, Hp. cbn [bind]. now rewrite Hr.
Qed.

Lemma blank_line_response line :
  is_blank line = true -> Stdio.process_line handleRequest line = [].
Proof. intros Hb. unfold Stdio.process_line. now rewrite Hb. Qed.

Lemma malformed_line_in_stream before line after partial t :
  newline_free (before ++ line :: after) ->
  no_newline partial = true ->
  is_blank line = false ->
  JSON_parse line = Throw t ->
  Stdio.step handleRequest (Stdio.Running "")
    (Stdio.StdinData (unlines (before ++ line :: after) ++ partial))
  = (Stdio.Running partial,
     (Stdio.process_lines handleRequest before
        ++ parse_error_response t :: Stdio.process_lines handleRequest after)%list).
Proof.
  intros Hl Hp Hb Ht.
  rewrite step_complete_lines by assumption.
  rewrite process_lines_app. simpl.
  now rewrite (malformed_line_response line t Hb Ht).
Qed.

Lemma blank_line_in_stream before line after partial :
  newline_free (before ++ line :: after) ->
  no_newline partial = true ->
  is_blank line = true ->
  Stdio.step handleRequest (Stdio.Running "")
    (Stdio.StdinData (unlines (before ++ line :: after) ++ partial))
  = (Stdio.Running partial,
     (Stdio.process_lines handleRequest before
        ++ Stdio.process_lines handleRequest after)%list).
Proof.
  intros Hl Hp Hb.
  rewrite step_complete_lines by assumption.
  rewrite process_lines_app. simpl.
  now rewrite (blank_line_response line Hb).
Qed.

(** No chunk of input ends the process: only the end of the stream and
    the interrupt signal do. *)
Lemma data_never_exits buffer chunk :
  exists buffer',
    fst (Stdio.step handleRequest (Stdio.Running buffer) (Stdio.StdinData chunk))
    = Stdio.Running buffer'.
Proof.
  unfold Stdio.step.
  destruct (Stdio.on_data handleRequest buffer chunk) as [buffer' written].
  now exists buffer'.
Qed.

(** One envelope per line that is not blank, none for the others. *)
Lemma one_response_per_nonblank_line lines :
  List.length (Stdio.process_lines handleRequest lines)
  = List.length (filter (fun l => negb (is_blank l)) lines).
Proof.
  induction lines as [|l ls IH]; simpl; [reflexivity|].
  rewrite length_app, IH. unfold Stdio.process_line.
  now destruct (is_blank l).
Qed.
End StdioFacts.

Section StdioClaims.
Context {RT : Runtime}.
Variable config : Standalone.Config.
Variable generateProfileHTML : ProfileData -> string.

(** C5 (amended).  A line that is not blank and that [JSON.parse]
    rejects gets exactly one envelope: it has no [id] field, no [result],
    and the error -32700 "Parse error" with the parser's message as data.
    The lines before and after it get the responses they get without it,
    and the process keeps running; so in the simple server and in the
    standalone profile server. *)
Theorem malformed_line_gets_one_parse_error
        (before after : list string) (line partial : string) (t : Thrown) :
  newline_free (before ++ line :: after) ->
  no_newline partial = true ->
  is_blank line = false ->
  JSON_parse line = Throw t ->
  let bad := parse_error_response t in
  let chunk := Stdio.StdinData (unlines (before ++ line :: after) ++ partial) in
  (id bad = None /\ result bad = None
   /\ error bad = Some {| code := -32700; message := "Parse error";
                          data := Some (error_message t) |})
  /\ Simple.startStdioServer (Stdio.Running "") chunk
     = (Stdio.Running partial,
        (Stdio.process_lines Simple.handleRequest before
           ++ bad :: Stdio.process_lines Simple.handleRequest after)%list)
  /\ Standalone.startStdioServer config generateProfileHTML (Stdio.Running "") chunk
     = (Stdio.Running partial,
        (Stdio.process_lines (Standalone.handleRequest config generateProfileHTML) before
           ++ bad
           :: Stdio.process_lines (Standalone.handleRequest config generateProfileHTML)
                after)%list).
Proof.
  intros Hl Hp Hb Ht bad chunk. split; [now repeat split|].
  split; apply malformed_line_in_stream; assumption.
Qed.

(** C10.  A line that is empty or white space only produces no envelope:
    the chunk is answered as if the line were not there, and the number
    of envelopes written is the number of lines that are not blank. *)
Theorem blank_line_gets_no_response
        (before after : list string) (line partial : string) :
  newline_free (before ++ line :: after) ->
  no_newline partial = true ->
  is_blank line = true ->
  let chunk := Stdio.StdinData (unlines (before ++ line :: after) ++ partial) in
  Simple.startStdioServer (Stdio.Running "") chunk
  = (Stdio.Running partial,
     (Stdio.process_lines Simple.handleRequest before
        ++ Stdio.process_lines Simple.handleRequest after)%list)
  /\ Standalone.startStdioServer config generateProfileHTML (Stdio.Running "") chunk
     = (Stdio.Running partial,
        (Stdio.process_lines (Standalone.handleRequest config generateProfileHTML) before
           ++ Stdio.process_lines (Standalone.handleRequest config generateProfileHTML)
                after)%list)
  /\ List.length (snd (Simple.startStdioServer (Stdio.Running "") chunk))
     = List.length (filter (fun l => negb (is_blank l)) (before ++ after)).
Proof.
  intros Hl Hp Hb chunk.
  assert (H1 := blank_line_in_stream Simple.handleRequest _ _ _ _ Hl Hp Hb).
  assert (H2 := blank_line_in_stream
                  (Standalone.handleRequest config generateProfileHTML) _ _ _ _ Hl Hp Hb).
  repeat split; try assumption.
  unfold Simple.startStdioServer, chunk. rewrite H1. cbn [snd].
  rewrite <- process_lines_app. apply one_response_per_nonblank_line.
Qed.
End StdioClaims.

(** ** The echo tool *)

Lemma call_params_fields tool args :
  exists p,
    call_params tool args = Some p
    /\ destructure "name" "request.params" (Some p) = Normal p
    /\ destructure "name" "params" (Some p) = Normal p
    /\ get_prop p "name" = Some (JString tool)
    /\ get_prop p "arguments" = args.
Proof.
  unfold call_params. eexists; split; [reflexivity|].
  destruct args; simpl; repeat split.
Qed.

Section Echo.
Context {RT : Runtime}.

(** C6 (amended).  The SDK server fails with InvalidParams, "Text
    parameter is required", when [text] is absent or falsy (the empty
    string included); for a non-empty string it returns exactly one text
    block, [Echo: ] followed by the text, and so does the simple server. *)
Theorem echo_requires_nonempty_text (args : jsany) :
  (truthy (opt_prop args "text") = false ->
   Sdk.callTool (call_params "echo" args)
   = Throw (McpError InvalidParams "Text parameter is required"))
  /\ (forall t,
        opt_prop args "text" = Some (JString t) ->
        t <> "" ->
        Sdk.callTool (call_params "echo" args) = Normal [TextBlock ("Echo: " ++ t)]
        /\ forall id,
             Simple.handleToolCall (call_params "echo" args) id
             = Normal (success id (ContentResult [TextBlock ("Echo: " ++ t)]))).
Proof.
  destruct (call_params_fields "echo" args) as (p & -> & Hd & Hd' & Hname & Hargs).
  split.
  - intros Hfalsy. unfold Sdk.callTool. rewrite Hd. cbn [bind].
    rewrite Hname, Hargs. cbn [is_string String.eqb Ascii.eqb Bool.eqb].
    unfold Sdk.echo. now rewrite Hfalsy.
  - intros t Ht Hne. apply String.eqb_neq in Hne. split.
    + unfold Sdk.callTool. rewrite Hd. cbn [bind].
      rewrite Hname, Hargs. cbn [is_string String.eqb Ascii.eqb Bool.eqb].
      unfold Sdk.echo. rewrite Ht. cbn [truthy]. now rewrite Hne.
    + intros id. unfold Simple.handleToolCall. rewrite Hd'. cbn [bind].
      rewrite Hname, Hargs. cbn [is_string String.eqb Ascii.eqb Bool.eqb].
      unfold Simple.echo, js_or. rewrite Ht. cbn [truthy]. now rewrite Hne.
Qed.
End Echo.

(** ** The get_profile tool *)

Lemma default_entry : own_profile "default" profiles = Some sarah.
Proof. reflexivity. Qed.

Lemma profile_or_default_stored key :
  inherited key = false -> profile_or_default key = IsProfile (stored_or_default key).
Proof.
  intros H. unfold profile_or_default, stored_or_default.
  destruct (own_profile key profiles); [reflexivity | now rewrite H].
Qed.

Section GetProfile.
Context {RT : Runtime}.
Variable config : Standalone.Config.
Variable generateProfileHTML : ProfileData -> string.
Variable DEFAULT_PROFILE_ID : option string.
Variable createProfileHTML : ProfileData -> string.

(** The success envelope of the standalone server for a profile. *)
Let view (id : jsany) (p : ProfileData) : Completion MCPResponse :=
  Normal (success id
            (ContentResult
               [TextBlock (Standalone.summary p);
                ResourceBlock "profile://html" "text/html" (generateProfileHTML p)])).

(** The result of the enhanced server for a profile. *)
Let loaded (p : ProfileData) : Completion (list ContentBlock) :=
  Normal [TextBlock (Enhanced.loaded p (createProfileHTML p))].

Lemma standalone_get_profile_at args id key :
  to_string (js_or (opt_prop args "profileId")
                   (Some (JString (Standalone.defaultProfileId config))))
  = Normal key ->
  inherited key = false ->
  Standalone.handleGetProfile config generateProfileHTML args id
  = view id (stored_or_default key).
Proof.
  intros Hkey Hin. unfold Standalone.handleGetProfile, Standalone.getProfileSync.
  rewrite Hkey. cbn [bind]. now rewrite profile_or_default_stored.
Qed.

Lemma enhanced_get_profile_at args key :
  to_string (js_or (opt_prop args "profileId")
                   (Some (JString (env_or DEFAULT_PROFILE_ID "default"))))
  = Normal key ->
  inherited key = false ->
  Enhanced.get_profile DEFAULT_PROFILE_ID createProfileHTML args
  = loaded (stored_or_default key).
Proof.
  intros Hkey Hin. unfold Enhanced.get_profile, Enhanced.get_profile_case.
  rewrite Hkey. cbn [bind]. now rewrite profile_or_default_stored.
Qed.

(** C7 (amended).  get_profile answers with a success result, never an
    error, for every id that is not a property name inherited from
    [Object.prototype]: the data of the profile stored under the id when
    the id is a key of the collection, and otherwise the data of the entry
    stored under the literal key [default].  The id looked up is
    [profileId] when it is a non-empty string, and the configured default
    id when [profileId] is absent or falsy.  So in the standalone server
    and in the enhanced server. *)
Theorem get_profile_lookup_and_fallback (args id : jsany) :
  (forall s,
      opt_prop args "profileId" = Some (JString s) ->
      s <> "" ->
      inherited s = false ->
      Standalone.handleGetProfile config generateProfileHTML args id
      = view id (stored_or_default s)
      /\ Enhanced.get_profile DEFAULT_PROFILE_ID createProfileHTML args
         = loaded (stored_or_default s))
  /\ (truthy (opt_prop args "profileId") = false ->
      (inherited (Standalone.defaultProfileId config) = false ->
       Standalone.handleGetProfile config generateProfileHTML args id
       = view id (stored_or_default (Standalone.defaultProfileId config)))
      /\ (inherited (env_or DEFAULT_PROFILE_ID "default") = false ->
          Enhanced.get_profile DEFAULT_PROFILE_ID createProfileHTML args
          = loaded (stored_or_default (env_or DEFAULT_PROFILE_ID "default")))).
Proof.
  split.
  - intros s Hs Hne Hin. apply String.eqb_neq in Hne.
    split; [apply standalone_get_profile_at | apply enhanced_get_profile_at];
      try assumption; unfold js_or; rewrite Hs; cbn [truthy]; now rewrite Hne.
  - intros Hfalsy.
    split; intros Hin;
      [apply standalone_get_profile_at | apply enhanced_get_profile_at];
      try assumption; unfold js_or; now rewrite Hfalsy.
Qed.
End GetProfile.

(** ** The token slot *)

Lemma strip_prefix_ci_length p s rest :
  strip_prefix_ci p s = Some rest ->
  String.length s = (String.length p + String.length rest)%nat.
Proof.
  revert s; induction p as [|a p IH]; intros s H; simpl in *.
  - now inversion H.
  - destruct s as [|b s]; [discriminate|].
    destruct (Ascii.eqb (to_lower a) (to_lower b)); [|discriminate].
    simpl. now rewrite (IH _ H).
Qed.

Lemma skip_space_fuel_length n s :
  (String.length (skip_space_fuel n s) <= String.length s)%nat.
Proof.
  revert s; induction n as [|n IH]; intros s; simpl; [lia|].
  destruct (leading_space s) as [[w rest]|] eqn:E; [|lia].
  apply leading_space_shape in E as (_ & _ & E).
  specialize (IH rest). lia.
Qed.

(** A header that starts with [Bearer] and white space loses at least
    seven characters, so the guard [token === authHeader] of the guarded
    middleware tells exactly whether the prefix was there. *)
Lemma strip_bearer_shorter header rest sp :
  strip_prefix_ci "Bearer" header = Some rest ->
  leading_space rest = Some sp ->
  String.eqb (skip_space rest) header = false.
Proof.
  intros Hp Hs. apply String.eqb_neq. intros Heq.
  apply strip_prefix_ci_length in Hp. simpl in Hp.
  pose proof (skip_space_fuel_length (String.length rest) rest) as Hlen.
  unfold skip_space in Heq. rewrite Heq in Hlen. lia.
Qed.

(** The guarded middleware stores, in both slots and whatever they held,
    [bearer_token] of the header: the token after the prefix, or nothing
    when the header is absent, has no prefix, or has nothing after it. *)
Lemma carousel_verifyToken_slots authHeader st :
  Carousel.verifyToken authHeader st
  = {| Carousel.currentAccessToken := bearer_token authHeader;
       Carousel.userAccessToken := bearer_token authHeader |}.
Proof.
  unfold Carousel.verifyToken, bearer_token, strip_bearer.
  destruct authHeader as [header|]; [|reflexivity].
  destruct (String.eqb header "") eqn:He.
  - apply String.eqb_eq in He; subst header. reflexivity.
  - destruct (strip_prefix_ci "Bearer" header) as [rest|] eqn:Hp.
    + destruct (leading_space rest) as [sp|] eqn:Hs.
      * rewrite (strip_bearer_shorter _ _ _ Hp Hs), orb_false_r.
        now destruct (String.eqb (skip_space rest) "").
      * now rewrite String.eqb_refl, orb_true_r.
    + now rewrite String.eqb_refl, orb_true_r.
Qed.

(** C8 (enhanced server, failing input).  A request whose Authorization
    header has no [Bearer] prefix: the middleware of the enhanced server
    stores the whole header in the token slot, where the specification requires the
    slot to be emptied; the guarded middleware empties it. *)
Theorem enhanced_verifyToken_stores_unprefixed_header (previous : Enhanced.TokenSlot) :
  strip_prefix_ci "Bearer" "Basic dXNlcjpwYXNz" = None
  /\ Enhanced.verifyToken (Some "Basic dXNlcjpwYXNz") previous
     = Some "Basic dXNlcjpwYXNz"
  /\ bearer_token (Some "Basic dXNlcjpwYXNz") = None.
Proof. repeat split. Qed.

(** ** Concrete runs on the reference engine *)

Lemma simple_calculate_accepts_foreign_characters_run :
  @js_eval Reference.runtime "" = Normal VUndefined
  /\ @Simple.handleRequest Reference.runtime
       (tool_call (JNumber (Finite 1)) "calculate" (expression_args "__proto__"))
     = Normal (success (Some (JNumber (Finite 1)))
                 (ContentResult [TextBlock "__proto__ = undefined"])).
Proof.
  split; [reflexivity|].
  apply (@simple_calculate_accepts_foreign_characters Reference.runtime).
  reflexivity.
Defined.

Lemma simple_calculate_returns_infinity_run :
  @js_eval Reference.runtime "1/0" = Normal (VNumber PosInfinity)
  /\ @Simple.handleRequest Reference.runtime
       (tool_call (JNumber (Finite 1)) "calculate" (expression_args "1/0"))
     = Normal (success (Some (JNumber (Finite 1)))
                 (ContentResult [TextBlock "1/0 = Infinity"])).
Proof.
  split; [reflexivity|].
  apply (@simple_calculate_returns_infinity Reference.runtime).
  reflexivity.
Defined.

(** On the same inputs the SDK server throws. *)
Lemma sdk_calculate_runs :
  @Sdk.callTool Reference.runtime (call_params "calculate" (expression_args "__proto__"))
  = Throw (McpError InternalError ("Calculation error: " ++ Sdk.invalid_characters))
  /\ @Sdk.callTool Reference.runtime (call_params "calculate" (expression_args "1/0"))
     = Throw (McpError InternalError "Calculation error: Result is not a finite number")
  /\ @Sdk.callTool Reference.runtime (call_params "calculate" (expression_args "2 + 3 * 4"))
     = Normal [TextBlock "2 + 3 * 4 = 14"].
Proof. repeat split. Qed.

Lemma response_has_exactly_one_of_result_and_error_run :
  call_without_params <> JNull
  /\ (exists r,
        @Simple.handleRequest Reference.runtime call_without_params = Normal r
        /\ exactly_one r)
  /\ (exists r,
        @Standalone.handleRequest Reference.runtime sample_config sample_html
          call_without_params
        = Normal r
        /\ exactly_one r).
Proof.
  split; [discriminate|].
  apply (@response_has_exactly_one_of_result_and_error Reference.runtime).
  discriminate.
Defined.

Lemma response_echoes_request_id_run :
  get_prop list_request "id" = Some (JNumber (Finite 7))
  /\ (exists r,
        @Simple.handleRequest Reference.runtime list_request = Normal r
        /\ id r = Some (JNumber (Finite 7)))
  /\ (exists r,
        @Standalone.handleRequest Reference.runtime sample_config sample_html list_request
        = Normal r
        /\ id r = Some (JNumber (Finite 7))).
Proof.
  split; [reflexivity|].
  apply (@response_echoes_request_id Reference.runtime).
  reflexivity.
Defined.

(** A number and the string of its digits are different ids. *)
Lemma number_id_is_not_string_id :
  Some (JNumber (Finite 7)) <> Some (JString "7").
Proof. discriminate. Qed.

Lemma missing_params_is_internal_error_run :
  @Simple.handleRequest Reference.runtime read_without_params
  = Normal (failure (Some (JString "abc")) (-32603) "Internal error"
              (Some "Cannot destructure property 'uri' of 'params' as it is undefined.")).
Proof.
  apply (@missing_params_is_internal_error Reference.runtime read_without_params
           "resources/read").
  - reflexivity.
  - right; reflexivity.
  - reflexivity.
Defined.

(** Three lines in one chunk, the second malformed: three envelopes, the
    first and the third being the dispatcher's. *)
Lemma malformed_line_gets_one_parse_error_run :
  snd (@Simple.startStdioServer Reference.runtime (Stdio.Running "")
         (Stdio.StdinData
            (unlines ([initialize_line] ++ malformed_line :: [unknown_method_line]) ++ "")))
  = [ success (Some (JNumber (Finite 7)))
        (InitializeResult "2024-11-05" "mcp-server-connection" "1.0.0");
      parse_error_response (Reference.SyntaxError "Unexpected token in JSON");
      failure (Some (JString "b")) (-32601) "Method not found: no/such" None ].
Proof.
  destruct (@malformed_line_gets_one_parse_error Reference.runtime sample_config sample_html
              [initialize_line] [unknown_method_line] malformed_line ""
              (Reference.SyntaxError "Unexpected token in JSON"))
    as (_ & H & _).
  - repeat constructor.
  - reflexivity.
  - reflexivity.
  - reflexivity.
  - rewrite H. reflexivity.
Defined.

(** A line that arrives in two chunks is answered when its newline
    arrives. *)
Lemma line_split_across_chunks :
  @Stdio.run Reference.runtime (@Simple.handleRequest Reference.runtime)
    (Stdio.Running "")
    [Stdio.StdinData "{ba"; Stdio.StdinData (String "d" (String LF "{"));
     Stdio.StdinEnd]
  = (Stdio.Exited 0,
     [parse_error_response (Reference.SyntaxError "Unexpected token in JSON")]).
Proof. reflexivity. Qed.

(** C5 (counterexample).  The envelope written for a malformed line has
    no [id] field at all, where the specification has an id that is null; and a
    blank line, which is not JSON either, gets no envelope. *)
Lemma malformed_line_envelope_has_no_id :
  (exists t, @JSON_parse Reference.runtime malformed_line = Throw t)
  /\ (exists r,
        snd (@Simple.startStdioServer Reference.runtime (Stdio.Running "")
               (Stdio.StdinData (unlines [malformed_line])))
        = [r]
        /\ id r = None /\ id r <> Some JNull)
  /\ (exists t, @JSON_parse Reference.runtime " " = Throw t)
  /\ snd (@Simple.startStdioServer Reference.runtime (Stdio.Running "")
            (Stdio.StdinData (unlines [" "])))
     = [].
Proof.
  split; [eexists; reflexivity|].
  split; [eexists; split; [reflexivity | split; [reflexivity | discriminate]]|].
  split; [eexists; reflexivity | reflexivity].
Qed.

Lemma blank_line_gets_no_response_run :
  snd (@Simple.startStdioServer Reference.runtime (Stdio.Running "")
         (Stdio.StdinData
            (unlines ([initialize_line] ++ "  " :: [unknown_method_line]) ++ "")))
  = [ success (Some (JNumber (Finite 7)))
        (InitializeResult "2024-11-05" "mcp-server-connection" "1.0.0");
      failure (Some (JString "b")) (-32601) "Method not found: no/such" None ].
Proof.
  destruct (@blank_line_gets_no_response Reference.runtime sample_config sample_html
              [initialize_line] [unknown_method_line] "  " "")
    as (H & _).
  - repeat constructor.
  - reflexivity.
  - reflexivity.
  - rewrite H. reflexivity.
Defined.

(** C6 (counterexample).  [text] is present and is the empty string: the
    SDK server throws, where the specification has the block [Echo: ]. *)
Lemma echo_of_empty_text_fails :
  opt_prop empty_text "text" = Some (JString "")
  /\ @Sdk.callTool Reference.runtime (call_params "echo" empty_text)
     = Throw (McpError InvalidParams "Text parameter is required")
  /\ @Sdk.callTool Reference.runtime (call_params "echo" empty_text)
     <> Normal [TextBlock "Echo: "].
Proof. repeat split. discriminate. Qed.

Lemma echo_requires_nonempty_text_run :
  @Sdk.callTool Reference.runtime (call_params "echo" None)
  = Throw (McpError InvalidParams "Text parameter is required")
  /\ @Sdk.callTool Reference.runtime
       (call_params "echo" (Some (JObject [("text", JString "hello")])))
     = Normal [TextBlock "Echo: hello"].
Proof.
  split.
  - apply (proj1 (@echo_requires_nonempty_text Reference.runtime None)).
    reflexivity.
  - apply (proj2 (@echo_requires_nonempty_text Reference.runtime
                    (Some (JObject [("text", JString "hello")]))) "hello").
    + reflexivity.
    + discriminate.
Defined.

(** C7 (counterexample).  With [DEFAULT_PROFILE_ID=admin] the configured
    default profile is Michael Chen's, yet an id that matches no key is
    answered with Sarah Johnson's, the entry under the key [default]; and
    the id [constructor], which matches no key either, is answered with an
    error. *)
Lemma unknown_id_ignores_configured_default :
  own_profile (Standalone.defaultProfileId admin_config) profiles = Some michael
  /\ own_profile "nonexistent-id" profiles = None
  /\ @Standalone.handleGetProfile Reference.runtime admin_config sample_html
       unknown_profile one
     = Normal (success one
                 (ContentResult
                    [TextBlock (Standalone.summary sarah);
                     ResourceBlock "profile://html" "text/html" (sample_html sarah)]))
  /\ sample_html sarah <> sample_html michael
  /\ own_profile "constructor" profiles = None
  /\ @Standalone.handleGetProfile Reference.runtime admin_config sample_html
       constructor_profile one
     = Normal (failure one (-32603) "Failed to fetch profile"
                 (Some "Cannot read properties of undefined (reading 'map')")).
Proof. repeat split. discriminate. Qed.

Lemma get_profile_lookup_and_fallback_run :
  @Standalone.handleGetProfile Reference.runtime admin_config sample_html
    unknown_profile one
  = Normal (success one
              (ContentResult
                 [TextBlock (Standalone.summary sarah);
                  ResourceBlock "profile://html" "text/html" (sample_html sarah)]))
  /\ @Standalone.handleGetProfile Reference.runtime admin_config sample_html None one
     = Normal (success one
                 (ContentResult
                    [TextBlock (Standalone.summary michael);
                     ResourceBlock "profile://html" "text/html" (sample_html michael)])).
Proof.
  split.
  - apply (proj1 (@get_profile_lookup_and_fallback Reference.runtime admin_config
                    sample_html None sample_html unknown_profile one)
             "nonexistent-id").
    + reflexivity.
    + discriminate.
    + reflexivity.
  - apply (proj2 (@get_profile_lookup_and_fallback Reference.runtime admin_config
                    sample_html None sample_html None one)).
    + reflexivity.
    + reflexivity.
Defined.

(** The guarded middleware on a few headers. *)
Lemma carousel_verifyToken_runs :
  forall st,
    Carousel.userAccessToken (Carousel.verifyToken (Some "Bearer abc.def") st)
    = Some "abc.def"
    /\ Carousel.userAccessToken (Carousel.verifyToken (Some "bEaReR   abc") st) = Some "abc"
    /\ Carousel.userAccessToken (Carousel.verifyToken (Some "Basic dXNlcjpwYXNz") st) = None
    /\ Carousel.userAccessToken (Carousel.verifyToken (Some "Bearer ") st) = None
    /\ Carousel.userAccessToken (Carousel.verifyToken None st) = None.
Proof. repeat split. Qed.

(** * Further properties *)

(** ** The allow-list of the calculator *)

(** X1.  The test [sanitizedExpression !== expression] of the SDK server
    is exact: the regular expression leaves an expression unchanged if and
    only if every character of it is in the allow-list. *)
Theorem allow_list_test_is_exact (expression : string) :
  sanitize expression = expression <-> only_allowed expression = true.
Proof.
  rewrite <- sanitize_identity. split.
  - intros ->. apply String.eqb_refl.
  - apply String.eqb_eq.
Qed.

Lemma sanitize_fuel_bytes n s c :
  occurs c (sanitize_fuel n s) = true -> allowed_byte c = true.
Proof.
  revert s; induction n as [|n IH]; intros s H; simpl in H; [discriminate|].
  destruct s as [|d rest]; [discriminate|].
  destruct (leading_space (String d rest)) as [[w rest']|] eqn:E.
  - apply first_match_app in E as [Hin _].
    rewrite occurs_app in H. apply orb_true_iff in H as [H|H]; [|now apply (IH rest')].
    unfold allowed_byte. apply orb_true_iff; right.
    apply existsb_exists. now exists w.
  - destruct (is_arith_char d) eqn:Hd; [|now apply (IH rest)].
    simpl in H. apply orb_true_iff in H as [H|H]; [|now apply (IH rest)].
    apply Ascii.eqb_eq in H; subst d. unfold allowed_byte. now rewrite Hd.
Qed.

(** X2.  Whatever the expression, the text the simple server hands to
    [eval] is made of bytes of allowed characters only: a byte that is not
    one (a letter, an underscore, a quote, a bracket, ...) never occurs in
    it. *)
Theorem nothing_foreign_reaches_eval (expression : string) (c : ascii) :
  allowed_byte c = false -> occurs c (sanitize expression) = false.
Proof.
  intros Hc. destruct (occurs c (sanitize expression)) eqn:E; [|reflexivity].
  apply sanitize_fuel_bytes in E. congruence.
Qed.

Lemma nothing_foreign_reaches_eval_run :
  allowed_byte "_" = false /\ occurs "_" (sanitize "__proto__ + 1") = false.
Proof.
  split; [reflexivity|].
  apply (nothing_foreign_reaches_eval "__proto__ + 1" "_"). reflexivity.
Defined.

(** X3.  The "additional safety check" of the SDK server is dead code: an
    expression that passed the allow-list contains neither two underscores
    nor the word constructor. *)
Theorem additional_safety_check_never_fires (expression : string) :
  only_allowed expression = true ->
  includes expression "__" = false /\ includes expression "constructor" = false.
Proof.
  intros H. apply orb_false_iff. now apply safety_check_dead.
Qed.

Lemma additional_safety_check_never_fires_run :
  only_allowed "(1 + 2) * 3" = true
  /\ includes "(1 + 2) * 3" "__" = false
  /\ includes "(1 + 2) * 3" "constructor" = false.
Proof.
  split; [reflexivity|].
  apply (additional_safety_check_never_fires "(1 + 2) * 3"). reflexivity.
Defined.

Section SdkFacts.
Context {RT : Runtime}.

(** X4.  The calculate case of the SDK server has three outcomes and no
    other: InvalidParams "Expression parameter is required" exactly when
    the expression is absent or falsy; InternalError with a message that
    starts with "Calculation error: "; or one text block that shows the
    expression and a finite number. *)
Theorem sdk_calculate_outcomes (args : jsany) :
  match Sdk.calculate args with
  | Normal content =>
      exists e q,
        opt_prop args "expression" = Some (JString e)
        /\ content = [TextBlock (e ++ " = " ++ Number_toString q)]
  | Throw (McpError InvalidParams m) =>
      m = "Expression parameter is required"
      /\ truthy (opt_prop args "expression") = false
  | Throw (McpError InternalError m) =>
      truthy (opt_prop args "expression") = true
      /\ exists cause, m = "Calculation error: " ++ cause
  | Throw _ => False
  end.
Proof.
  destruct (Sdk.calculate args) as [content|t] eqn:E.
  - destruct (sdk_calculate_result_is_finite _ _ E) as (e & q & He & _ & Hc).
    now exists e, q.
  - unfold Sdk.calculate in E.
    destruct (truthy (opt_prop args "expression")) eqn:Ht; cbn [negb] in E.
    + destruct (Sdk.evaluate (opt_prop args "expression")); cbn [try_catch] in E;
        [discriminate|].
      inversion E; subst. split; [reflexivity | eexists; reflexivity].
    + inversion E; subst. now split.
Qed.

(** X5.  The tool handler of the SDK server throws nothing but an
    [McpError]: whatever else is thrown under its [try] (the conversion of
    an odd [text] or [name] to a string, for one) leaves as InternalError
    "Tool execution failed". *)
Theorem sdk_callTool_throws_only_McpError (p : json) :
  p <> JNull ->
  match Sdk.callTool (Some p) with
  | Normal _ => True
  | Throw (McpError _ _) => True
  | Throw (JsError _ _) => False
  end.
Proof.
  intros Hp. unfold Sdk.callTool.
  assert (Hd : destructure "name" "request.params" (Some p) = Normal p)
    by (destruct p; try reflexivity; congruence).
  rewrite Hd. cbn [bind].
  destruct (is_string (get_prop p "name") "echo").
  { unfold Sdk.echo.
    destruct (negb (truthy (opt_prop (get_prop p "arguments") "text"))); cbn; auto.
    destruct (to_string (opt_prop (get_prop p "arguments") "text")) as [|[]]; cbn; auto. }
  destruct (is_string (get_prop p "name") "get_current_time"); [exact I|].
  destruct (is_string (get_prop p "name") "calculate").
  { unfold Sdk.calculate.
    destruct (negb (truthy (opt_prop (get_prop p "arguments") "expression")));
      cbn; auto.
    destruct (Sdk.evaluate (opt_prop (get_prop p "arguments") "expression"));
      cbn; auto. }
  destruct (to_string (get_prop p "name")) as [|[]]; cbn; auto.
Qed.

(** X6.  The resource handler of the SDK server returns exactly one
    content, of type application/json and with the uri that was asked for;
    for any other string it throws InvalidParams "Unknown resource: " and
    the uri. *)
Theorem sdk_readResource_outcomes (p : json) :
  (forall contents,
      Sdk.readResource (Some p) = Normal contents ->
      exists c,
        contents = [c]
        /\ get_prop p "uri" = Some (JString (content_uri c))
        /\ content_mimeType c = "application/json")
  /\ (forall u,
        get_prop p "uri" = Some (JString u) ->
        u <> "server://info" ->
        u <> "server://capabilities" ->
        Sdk.readResource (Some p)
        = Throw (McpError InvalidParams ("Unknown resource: " ++ u))).
Proof.
  split.
  - intros contents H. unfold Sdk.readResource in H.
    destruct p; try discriminate H; cbn [destructure bind] in H;
      match type of H with
      | context [is_string ?u "server://info"] =>
          destruct (is_string u "server://info") eqn:E1;
          [|destruct (is_string u "server://capabilities") eqn:E2;
            [|destruct (to_string u); discriminate H]]
      end;
      inversion H; subst; eexists; split; try reflexivity; cbn [content_uri content_mimeType];
      split; try reflexivity.
    + unfold is_string in E1. destruct (get_prop (JObject fields) "uri") as [[]|];
        try discriminate. apply String.eqb_eq in E1. now subst.
    + unfold is_string in E2. destruct (get_prop (JObject fields) "uri") as [[]|];
        try discriminate. apply String.eqb_eq in E2. now subst.
  - intros u Hu H1 H2. apply String.eqb_neq in H1, H2.
    unfold Sdk.readResource.
    destruct p; try discriminate Hu. cbn [destructure bind].
    rewrite Hu. cbn [is_string]. now rewrite H1, H2.
Qed.

End SdkFacts.

Lemma sdk_callTool_throws_only_McpError_run :
  odd_call <> JNull
  /\ match @Sdk.callTool Reference.runtime (Some odd_call) with
     | Normal _ => True
     | Throw (McpError _ _) => True
     | Throw (JsError _ _) => False
     end.
Proof.
  split; [discriminate|].
  apply (@sdk_callTool_throws_only_McpError Reference.runtime odd_call). discriminate.
Defined.

Lemma sdk_readResource_outcomes_run :
  @Sdk.readResource Reference.runtime (Some odd_read)
  = Throw (McpError InvalidParams "Unknown resource: server://nothing").
Proof.
  apply (proj2 (@sdk_readResource_outcomes Reference.runtime odd_read)
           "server://nothing").
  - reflexivity.
  - discriminate.
  - discriminate.
Defined.

(** ** Error codes of the dispatchers *)

Lemma graded_bind {A} (c : Completion A) k :
  (forall a, graded (k a)) -> graded (bind c k).
Proof. intros H; destruct c; simpl; auto. Qed.

Lemma graded_try_catch c h :
  graded c -> (forall t, graded (h t)) -> graded (try_catch c h).
Proof. intros Hc Hh; destruct c; simpl; auto. Qed.

Lemma graded_success i r : graded (Normal (success i r)).
Proof. exact I. Qed.

Lemma graded_routing i c m :
  c = -32601 \/ c = -32602 -> graded (Normal (failure i c m None)).
Proof. intros H. left. now split. Qed.

Lemma graded_internal i m d : graded (Normal (failure i (-32603) m (Some d))).
Proof. right. split; [reflexivity | discriminate]. Qed.

Ltac grade :=
  repeat match goal with
    | |- graded (bind _ _) => apply graded_bind; intros
    | |- graded (try_catch _ _) => apply graded_try_catch; [|intros]
    | |- graded (Normal (success _ _)) => apply graded_success
    | |- graded (Normal (failure _ _ _ (Some _))) => apply graded_internal
    | |- graded (Normal (failure _ _ _ None)) => apply graded_routing; solve [auto]
    | |- graded (Throw _) => exact I
    | |- graded (if ?b then _ else _) => destruct b
    | |- graded (match ?x with _ => _ end) => destruct x
    end.

Section Codes.
Context {RT : Runtime}.
Variable config : Standalone.Config.
Variable generateProfileHTML : ProfileData -> string.

Lemma simple_route_graded method params i : graded (Simple.route method params i).
Proof.
  unfold Simple.route, Simple.handleToolCall, Simple.handleResourceRead,
    Simple.echo, Simple.get_current_time, Simple.calculate.
  grade.
Qed.

Lemma standalone_route_graded method params i :
  graded (Standalone.route config generateProfileHTML method params i).
Proof.
  unfold Standalone.route, Standalone.handleToolCall, Standalone.handleResourceRead,
    Standalone.handleGetProfile.
  grade.
Qed.

Lemma catch_all_graded i body r :
  graded body ->
  try_catch body
    (fun error =>
       Normal (failure i (-32603) "Internal error" (Some (error_message error))))
  = Normal r ->
  coded r.
Proof.
  destruct body as [r'|t]; simpl; intros H E; inversion E; subst; auto.
  right. split; [reflexivity | discriminate].
Qed.

(** X7.  The only error codes of the two dispatchers are -32601, -32602
    and -32603; an error -32603 always carries the cause as data and the two
    routing errors never carry data.  The dispatchers never answer -32700. *)
Theorem dispatcher_error_codes (request : json) (r : MCPResponse) :
  Simple.handleRequest request = Normal r
  \/ Standalone.handleRequest config generateProfileHTML request = Normal r ->
  coded r.
Proof.
  intros [H|H].
  - unfold Simple.handleRequest in H.
    destruct request; try discriminate H; cbn [destructure bind] in H;
      eapply catch_all_graded; try exact H; apply simple_route_graded.
  - unfold Standalone.handleRequest in H.
    destruct request; try discriminate H; cbn [destructure bind] in H;
      eapply catch_all_graded; try exact H; apply standalone_route_graded.
Qed.

(** X8.  A method that is none of initialize, tools/list, resources/list,
    tools/call and resources/read is answered by both dispatchers with
    -32601 "Method not found: " and the method, whatever the params. *)
Theorem unknown_method_is_not_found (request : json) (m : string) :
  get_prop request "method" = Some (JString m) ->
  ~ In m ["initialize"; "tools/list"; "resources/list"; "tools/call"; "resources/read"] ->
  Simple.handleRequest request
  = Normal (failure (get_prop request "id") (-32601) ("Method not found: " ++ m) None)
  /\ Standalone.handleRequest config generateProfileHTML request
     = Normal (failure (get_prop request "id") (-32601) ("Method not found: " ++ m) None).
Proof.
  intros Hm Hnot.
  assert (H : forall lit,
             In lit ["initialize"; "tools/list"; "resources/list"; "tools/call";
                     "resources/read"] ->
             is_string (Some (JString m)) lit = false).
  { intros lit Hin. cbn [is_string]. apply String.eqb_neq. intros ->. now apply Hnot. }
  destruct request; try discriminate Hm.
  unfold Simple.handleRequest, Standalone.handleRequest, Simple.route, Standalone.route.
  cbn [destructure bind]. rewrite Hm.
  rewrite !H by (simpl; auto 6). now split.
Qed.

(** X9.  A [tools/call] of a tool the simple server does not have is
    answered -32601 "Unknown tool: " and the name; a [resources/read] of a
    resource it does not have is answered -32602 "Unknown resource: " and
    the uri. *)
Theorem unknown_tool_and_resource (id p : json) (n : string) :
  p <> JNull ->
  (get_prop p "name" = Some (JString n) ->
   ~ In n ["echo"; "get_current_time"; "calculate"] ->
   Simple.handleRequest (request_of id "tools/call" (Some p))
   = Normal (failure (Some id) (-32601) ("Unknown tool: " ++ n) None))
  /\ (get_prop p "uri" = Some (JString n) ->
      ~ In n ["server://info"; "server://capabilities"] ->
      Simple.handleRequest (request_of id "resources/read" (Some p))
      = Normal (failure (Some id) (-32602) ("Unknown resource: " ++ n) None)).
Proof.
  intros Hp.
  assert (Hd : forall prop, destructure prop "params" (Some p) = Normal p)
    by (intros; destruct p; try reflexivity; congruence).
  split; intros Hn Hnot.
  - assert (H : forall lit, In lit ["echo"; "get_current_time"; "calculate"] ->
                       is_string (Some (JString n)) lit = false).
    { intros lit Hin. cbn [is_string]. apply String.eqb_neq. intros ->. now apply Hnot. }
    unfold Simple.handleRequest, request_of. cbn [destructure bind].
    change (get_prop _ "method") with (Some (JString "tools/call")).
    change (get_prop _ "id") with (Some id).
    change (get_prop _ "params") with (Some p).
    unfold Simple.route. cbn [is_string String.eqb Ascii.eqb Bool.eqb].
    unfold Simple.handleToolCall. rewrite Hd. cbn [bind]. rewrite Hn.
    now rewrite !H by (simpl; auto).
  - assert (H : forall lit, In lit ["server://info"; "server://capabilities"] ->
                       is_string (Some (JString n)) lit = false).
    { intros lit Hin. cbn [is_string]. apply String.eqb_neq. intros ->. now apply Hnot. }
    unfold Simple.handleRequest, request_of. cbn [destructure bind].
    change (get_prop _ "method") with (Some (JString "resources/read")).
    change (get_prop _ "id") with (Some id).
    change (get_prop _ "params") with (Some p).
    unfold Simple.route. cbn [is_string String.eqb Ascii.eqb Bool.eqb].
    unfold Simple.handleResourceRead. rewrite Hd. cbn [bind]. rewrite Hn.
    now rewrite !H by (simpl; auto).
Qed.

(** X10.  The echo tool of the simple server never fails on a text that is
    a string or is missing: a missing or empty text is echoed as the empty
    string. *)
Theorem simple_echo_defaults_to_empty (args id : jsany) (t : string) :
  opt_prop args "text" = Some (JString t)
  \/ (truthy (opt_prop args "text") = false /\ t = "") ->
  Simple.handleToolCall (call_params "echo" args) id
  = Normal (success id (ContentResult [TextBlock ("Echo: " ++ t)])).
Proof.
  intros H.
  destruct (call_params_fields "echo" args) as (p & -> & _ & Hd & Hname & Hargs).
  unfold Simple.handleToolCall. rewrite Hd. cbn [bind].
  rewrite Hname, Hargs. cbn [is_string String.eqb Ascii.eqb Bool.eqb].
  unfold Simple.echo, js_or.
  destruct H as [H|[H ->]].
  - rewrite H. cbn [truthy]. destruct (String.eqb t "") eqn:E; [|reflexivity].
    apply String.eqb_eq in E. now subst.
  - now rewrite H.
Qed.
End Codes.

Lemma dispatcher_error_codes_run :
  @Simple.handleRequest Reference.runtime call_without_params
  = Normal (failure (Some (JNumber (Finite 7))) (-32603) "Internal error"
              (Some "Cannot destructure property 'name' of 'params' as it is undefined."))
  /\ coded (failure (Some (JNumber (Finite 7))) (-32603) "Internal error"
              (Some "Cannot destructure property 'name' of 'params' as it is undefined.")).
Proof.
  split; [reflexivity|].
  apply (@dispatcher_error_codes Reference.runtime sample_config sample_html
           call_without_params).
  left. reflexivity.
Defined.

Lemma unknown_method_is_not_found_run :
  @Simple.handleRequest Reference.runtime
    (request_of (JString "b") "prompts/list" None)
  = Normal (failure (Some (JString "b")) (-32601) "Method not found: prompts/list" None).
Proof.
  apply (@unknown_method_is_not_found Reference.runtime sample_config sample_html
           (request_of (JString "b") "prompts/list" None) "prompts/list").
  - reflexivity.
  - simpl. intuition discriminate.
Defined.

Lemma unknown_tool_and_resource_run :
  @Simple.handleRequest Reference.runtime
    (request_of (JNumber (Finite 1)) "tools/call"
       (Some (JObject [("name", JString "get_profile")])))
  = Normal (failure one (-32601) "Unknown tool: get_profile" None).
Proof.
  apply (@unknown_tool_and_resource Reference.runtime (JNumber (Finite 1))
           (JObject [("name", JString "get_profile")]) "get_profile").
  - discriminate.
  - reflexivity.
  - simpl. intuition discriminate.
Defined.

Lemma simple_echo_defaults_to_empty_run :
  @Simple.handleToolCall Reference.runtime (call_params "echo" None) one
  = Normal (success one (ContentResult [TextBlock "Echo: "])).
Proof.
  apply (@simple_echo_defaults_to_empty Reference.runtime None one "").
  right. split; reflexivity.
Defined.

(** ** The stream as a whole *)

Lemma split_lines_app s t :
  split_lines (s ++ t)
  = (removelast (split_lines s) ++ split_lines (last (split_lines s) "" ++ t))%list.
Proof.
  induction s as [|c s IH]; [reflexivity|].
  cbn [String.append split_lines].
  destruct (split_lines_cons s) as (l & ls & E).
  destruct (Ascii.eqb c LF) eqn:Ec.
  - rewrite IH, E. reflexivity.
  - rewrite IH, E. destruct ls as [|l2 ls].
    + cbn [removelast last app String.append split_lines]. now rewrite Ec.
    + reflexivity.
Qed.

Lemma split_lines_newline_free s : newline_free (split_lines s).
Proof.
  induction s as [|c s IH]; simpl.
  - now repeat constructor.
  - destruct (Ascii.eqb c LF) eqn:Ec.
    + now constructor.
    + destruct (split_lines s) as [|l ls]; inversion IH; subst;
        constructor; auto; simpl; now rewrite Ec.
Qed.

Lemma last_newline_free s : no_newline (last (split_lines s) "") = true.
Proof.
  pose proof (split_lines_newline_free s) as H.
  induction (split_lines s) as [|l ls IH]; [reflexivity|].
  inversion H; subst. destruct ls; [assumption | now apply IH].
Qed.

Lemma last_app_nonempty {A} (a b : list A) d :
  b <> [] -> last (a ++ b)%list d = last b d.
Proof.
  intros Hb. induction a as [|x a IH]; [reflexivity|].
  simpl. destruct (a ++ b)%list eqn:E; [|assumption].
  apply app_eq_nil in E as [_ ->]. contradiction.
Qed.

Lemma string_app_empty s : s ++ "" = s.
Proof. induction s; simpl; congruence. Qed.

Section Stream.
Context {RT : Runtime}.
Variable handleRequest : json -> Completion MCPResponse.

Lemma run_app p events events' :
  Stdio.run handleRequest p (events ++ events')%list
  = (let (p', written) := Stdio.run handleRequest p events in
     let (p'', written') := Stdio.run handleRequest p' events' in
     (p'', (written ++ written')%list)).
Proof.
  revert p; induction events as [|e events IH]; intros p; simpl.
  - now destruct (Stdio.run handleRequest p events').
  - destruct (Stdio.step handleRequest p e) as [p1 w1].
    rewrite IH. destruct (Stdio.run handleRequest p1 events) as [p2 w2].
    destruct (Stdio.run handleRequest p2 events') as [p3 w3].
    now rewrite app_assoc.
Qed.

Lemma run_data buffer chunks :
  no_newline buffer = true ->
  Stdio.run handleRequest (Stdio.Running buffer) (map Stdio.StdinData chunks)
  = (Stdio.Running (last (split_lines (buffer ++ whole chunks)) ""),
     Stdio.process_lines handleRequest
       (removelast (split_lines (buffer ++ whole chunks)))).
Proof.
  revert buffer; induction chunks as [|c chunks IH]; intros buffer Hb.
  - cbn [map Stdio.run whole fold_right]. rewrite string_app_empty.
    now rewrite split_lines_partial.
  - cbn [map Stdio.run whole fold_right Stdio.step]. unfold Stdio.on_data.
    rewrite IH by apply last_newline_free.
    fold (whole chunks).
    rewrite <- string_app_assoc, (split_lines_app (buffer ++ c)).
    destruct (split_lines_cons (last (split_lines (buffer ++ c)) "" ++ whole chunks))
      as (l & ls & E).
    rewrite last_app_nonempty by (rewrite E; discriminate).
    rewrite removelast_app by (rewrite E; discriminate).
    now rewrite process_lines_app.
Qed.

(** X11.  What the process writes over a whole stream does not depend on
    how the input is cut into chunks: it is, in order, one answer per
    non-blank line of the concatenated input, for the lines that end with a
    newline.  What follows the last newline is still in the buffer when the
    stream ends and is never answered; the process exits with status 0. *)
Theorem stream_is_answered_line_by_line (chunks : list string) :
  Stdio.run handleRequest (Stdio.Running "")
    (map Stdio.StdinData chunks ++ [Stdio.StdinEnd])%list
  = (Stdio.Exited 0,
     Stdio.process_lines handleRequest (removelast (split_lines (whole chunks)))).
Proof.
  rewrite run_app, run_data by reflexivity.
  cbn [String.append Stdio.run Stdio.step]. now rewrite app_nil_r.
Qed.

(** X12.  A line that holds the JSON value [null] is valid JSON, yet it is
    answered with the parse error -32700: the dispatcher throws on it
    before its own [try], and the loop's [catch] reports every exception as
    "Parse error". *)
Theorem null_line_is_a_parse_error (line : string) :
  is_blank line = false ->
  JSON_parse line = Normal JNull ->
  Stdio.process_line Simple.handleRequest line
  = [parse_error_response
       (TypeError "Cannot destructure property 'method' of 'request' as it is null.")].
Proof.
  intros Hb Hp. unfold Stdio.process_line, Stdio.respond.
  now rewrite Hb, Hp.
Qed.
End Stream.

Section StreamEnvelopes.
Context {RT : Runtime}.
Variable config : Standalone.Config.
Variable generateProfileHTML : ProfileData -> string.

Lemma respond_exactly_one handleRequest line :
  (forall request r, handleRequest request = Normal r -> exactly_one r) ->
  exactly_one (Stdio.respond handleRequest line).
Proof.
  intros H. unfold Stdio.respond.
  destruct (JSON_parse line) as [request|t]; cbn [bind]; [|reflexivity].
  destruct (handleRequest request) as [r|t] eqn:E; [|reflexivity].
  now apply (H request).
Qed.

Lemma simple_returns_well_formed request r :
  Simple.handleRequest request = Normal r -> exactly_one r.
Proof.
  intros H.
  assert (Hn : request <> JNull) by (intros ->; discriminate H).
  destruct (simple_handleRequest_responds request Hn) as (r' & H' & Hone & _).
  congruence.
Qed.

Lemma standalone_returns_well_formed request r :
  Standalone.handleRequest config generateProfileHTML request = Normal r ->
  exactly_one r.
Proof.
  intros H.
  assert (Hn : request <> JNull) by (intros ->; discriminate H).
  destruct (standalone_handleRequest_responds config generateProfileHTML request Hn)
    as (r' & H' & Hone & _).
  congruence.
Qed.

(** X13.  Every envelope the stdio loop writes, for whatever input, has
    exactly one of [result] and [error]; so in the simple server and in the
    standalone profile server. *)
Theorem every_written_envelope_is_well_formed (lines : list string) :
  Forall exactly_one (Stdio.process_lines Simple.handleRequest lines)
  /\ Forall exactly_one
       (Stdio.process_lines (Standalone.handleRequest config generateProfileHTML) lines).
Proof.
  split; induction lines as [|l lines IH]; try constructor;
    cbn [Stdio.process_lines flat_map]; unfold Stdio.process_line at 1;
    destruct (is_blank l); cbn [app]; try assumption; constructor; try assumption;
    apply respond_exactly_one.
  - apply simple_returns_well_formed.
  - apply standalone_returns_well_formed.
Qed.

End StreamEnvelopes.

Lemma stream_is_answered_line_by_line_run :
  @Stdio.run Reference.runtime (@Simple.handleRequest Reference.runtime)
    (Stdio.Running "")
    (map Stdio.StdinData ["{ba"; String "d" (String LF initialize_line)]
       ++ [Stdio.StdinEnd])%list
  = (Stdio.Exited 0,
     [parse_error_response (Reference.SyntaxError "Unexpected token in JSON")]).
Proof.
  rewrite (@stream_is_answered_line_by_line Reference.runtime
             (@Simple.handleRequest Reference.runtime)
             ["{ba"; String "d" (String LF initialize_line)]).
  reflexivity.
Defined.

Lemma null_line_is_a_parse_error_run :
  @Stdio.process_line Reference.runtime (@Simple.handleRequest Reference.runtime) "null"
  = [parse_error_response
       (TypeError "Cannot destructure property 'method' of 'request' as it is null.")].
Proof.
  apply (@null_line_is_a_parse_error Reference.runtime "null"); reflexivity.
Defined.


(** ** Profiles over HTTP, and the names an object inherits *)

Lemma inherited_is_not_stored key :
  inherited key = true -> profile_or_default key = NotProfile key.
Proof.
  intros H. unfold profile_or_default. rewrite H.
  unfold inherited in H. apply existsb_exists in H as (k & Hin & Hk).
  apply String.eqb_eq in Hk; subst k.
  simpl in Hin.
  repeat (destruct Hin as [<-|Hin]; [reflexivity|]). contradiction.
Qed.

Lemma js_or_looked_up configured id :
  js_or (opt_prop (profile_args id) "profileId") (Some (JString configured))
  = Some (JString (looked_up configured id))
  /\ js_or (option_map JString id) (Some (JString configured))
     = Some (JString (looked_up configured id)).
Proof.
  destruct id as [s|]; [|now split].
  unfold js_or, profile_args, looked_up. cbn.
  now destruct (String.eqb s "").
Qed.

Section Pages.
Context {RT : Runtime}.
Variable config : Standalone.Config.
Variable generateProfileHTML : ProfileData -> string.
Variable DEFAULT_PROFILE_ID : option string.
Variable createProfileHTML : ProfileData -> string.

(** X15.  The page [GET /profile/:id?] of the standalone server shows the
    profile the get_profile tool returns for the same id: the HTML of the
    page is the text of the tool's resource block, with status 200, for
    every id that is not a name inherited from [Object.prototype]. *)
Theorem profile_page_shows_the_tool_profile (id : option string) (rid : jsany) :
  let key := looked_up (Standalone.defaultProfileId config) id in
  inherited key = false ->
  Standalone.get_profile_page config generateProfileHTML id
  = Standalone.HtmlReply 200 (generateProfileHTML (stored_or_default key))
  /\ Standalone.handleGetProfile config generateProfileHTML (profile_args id) rid
     = Normal (success rid
                 (ContentResult
                    [TextBlock (Standalone.summary (stored_or_default key));
                     ResourceBlock "profile://html" "text/html"
                       (generateProfileHTML (stored_or_default key))])).
Proof.
  intros key Hin.
  destruct (js_or_looked_up (Standalone.defaultProfileId config) id) as [H1 H2].
  split.
  - unfold Standalone.get_profile_page, Standalone.getProfileSync.
    rewrite H2. cbn [to_string bind]. fold key.
    now rewrite profile_or_default_stored.
  - unfold Standalone.handleGetProfile, Standalone.getProfileSync.
    rewrite H1. cbn [to_string bind]. fold key.
    now rewrite profile_or_default_stored.
Qed.

(** X16.  An id that is the name of a property every object inherits
    (constructor, toString, __proto__, ...) is found in the profile
    collection without being a profile: the standalone tool answers -32603
    "Failed to fetch profile", its page answers 500, and the enhanced tool
    throws InternalError, where an unknown id would get the default
    profile. *)
Theorem inherited_names_are_answered_with_errors (args : jsany) (s : string) (rid : jsany) :
  inherited s = true ->
  opt_prop args "profileId" = Some (JString s) ->
  Standalone.handleGetProfile config generateProfileHTML args rid
  = Normal (failure rid (-32603) "Failed to fetch profile"
              (Some "Cannot read properties of undefined (reading 'map')"))
  /\ Standalone.get_profile_page config generateProfileHTML (Some s)
     = Standalone.ErrorReply 500 "Failed to generate profile"
         "Cannot read properties of undefined (reading 'map')"
  /\ Enhanced.get_profile DEFAULT_PROFILE_ID createProfileHTML args
     = Throw (McpError InternalError
                "Tool execution failed: TypeError: Cannot read properties of undefined (reading 'map')").
Proof.
  intros Hin Hs.
  assert (Hne : String.eqb s "" = false).
  { destruct (String.eqb s "") eqn:E; [|reflexivity].
    apply String.eqb_eq in E; subst. discriminate Hin. }
  repeat split.
  - unfold Standalone.handleGetProfile, Standalone.getProfileSync, js_or.
    rewrite Hs. cbn [truthy]. rewrite Hne. cbn [negb to_string bind].
    now rewrite inherited_is_not_stored.
  - unfold Standalone.get_profile_page, Standalone.getProfileSync, js_or.
    cbn [option_map truthy]. rewrite Hne. cbn [negb to_string bind].
    now rewrite inherited_is_not_stored.
  - unfold Enhanced.get_profile, Enhanced.get_profile_case, js_or.
    rewrite Hs. cbn [truthy]. rewrite Hne. cbn [negb to_string bind].
    now rewrite inherited_is_not_stored.
Qed.
End Pages.

Lemma profile_page_shows_the_tool_profile_run :
  inherited (looked_up (Standalone.defaultProfileId admin_config) (Some "nobody")) = false
  /\ @Standalone.get_profile_page Reference.runtime admin_config sample_html (Some "nobody")
     = Standalone.HtmlReply 200 (sample_html sarah).
Proof.
  split; [reflexivity|].
  apply (@profile_page_shows_the_tool_profile Reference.runtime admin_config sample_html
           (Some "nobody") one).
  reflexivity.
Defined.

Lemma inherited_names_are_answered_with_errors_run :
  inherited "toString" = true
  /\ @Standalone.get_profile_page Reference.runtime sample_config sample_html
       (Some "toString")
     = Standalone.ErrorReply 500 "Failed to generate profile"
         "Cannot read properties of undefined (reading 'map')".
Proof.
  split; [reflexivity|].
  apply (@inherited_names_are_answered_with_errors Reference.runtime sample_config
           sample_html None sample_html (profile_args (Some "toString")) "toString" one);
    reflexivity.
Defined.

(** X17.  The standalone server never runs with an empty name, version or
    default profile id: an environment variable that is unset or empty
    gives the built-in value. *)
Theorem configuration_is_never_empty (n v d : option string) :
  Standalone.serverName (Standalone.configure n v d) <> ""
  /\ Standalone.serverVersion (Standalone.configure n v d) <> ""
  /\ Standalone.defaultProfileId (Standalone.configure n v d) <> ""
  /\ (d = None \/ d = Some "" ->
      Standalone.defaultProfileId (Standalone.configure n v d) = "default").
Proof.
  assert (H : forall x fallback, fallback <> "" -> env_or x fallback <> "").
  { intros [x|] fallback Hf; unfold env_or; [|assumption].
    destruct (String.eqb x "") eqn:E; [assumption|]. now apply String.eqb_neq. }
  unfold Standalone.configure; cbn.
  repeat split; try (apply H; discriminate).
  intros [->| ->]; reflexivity.
Qed.

Lemma configuration_is_never_empty_run :
  Standalone.defaultProfileId (Standalone.configure None None (Some "")) = "default".
Proof.
  apply (configuration_is_never_empty None None (Some "")). now right.
Defined.

(** ** The token slots *)

Lemma bearer_token_nonempty authHeader t :
  bearer_token authHeader = Some t -> String.eqb t "" = false.
Proof.
  unfold bearer_token. destruct authHeader as [h|]; [|discriminate].
  destruct (strip_prefix_ci "Bearer" h); [|discriminate].
  destruct (leading_space s); [|discriminate].
  destruct (String.eqb (skip_space s) "") eqn:E; [discriminate|].
  intros H; inversion H; subst. exact E.
Qed.

Lemma require_after_verifyToken authHeader st :
  Carousel.requireUserToken (Carousel.verifyToken authHeader st)
  = match bearer_token authHeader with
    | Some token => Normal token
    | None => Throw authentication_required
    end.
Proof.
  rewrite carousel_verifyToken_slots.
  unfold Carousel.requireUserToken. cbn.
  destruct (bearer_token authHeader) as [t|] eqn:E; [|reflexivity].
  now rewrite (bearer_token_nonempty _ _ E).
Qed.

(** X18.  After a request has gone through the guarded middleware, what
    any earlier request stored is gone: the slots depend on the last
    Authorization header only, and [requireUserToken] returns that header's
    token or throws "Authentication required" when it has none. *)
Theorem last_request_decides_the_token (first last : option string) (st : Carousel.Tokens) :
  Carousel.verifyToken last (Carousel.verifyToken first st) = Carousel.verifyToken last st
  /\ Carousel.requireUserToken (Carousel.verifyToken last st)
     = match bearer_token last with
       | Some token => Normal token
       | None => Throw authentication_required
       end.
Proof.
  split; [now rewrite !carousel_verifyToken_slots | apply require_after_verifyToken].
Qed.

Lemma strip_prefix_ci_suffix p s rest :
  strip_prefix_ci p s = Some rest -> exists p', s = p' ++ rest.
Proof.
  revert s; induction p as [|a p IH]; intros s H; simpl in H.
  - inversion H. now exists "".
  - destruct s as [|b s]; [discriminate|].
    destruct (Ascii.eqb (to_lower a) (to_lower b)); [|discriminate].
    destruct (IH _ H) as (p' & ->). now exists (String b p').
Qed.

Lemma skip_space_fuel_suffix n s : exists w, s = w ++ skip_space_fuel n s.
Proof.
  revert s; induction n as [|n IH]; intros s; simpl; [now exists ""|].
  destruct (leading_space s) as [[w rest]|] eqn:E; [|now exists ""].
  apply leading_space_shape in E as (-> & _).
  destruct (IH rest) as (w' & Hw). exists (w ++ w').
  now rewrite string_app_assoc, <- Hw.
Qed.

Lemma skip_space_fuel_done n s :
  (String.length s <= n)%nat -> leading_space (skip_space_fuel n s) = None.
Proof.
  revert s; induction n as [|n IH]; intros s Hn; simpl.
  - destruct s; [reflexivity | simpl in Hn; lia].
  - destruct (leading_space s) as [[w rest]|] eqn:E; [|assumption].
    apply leading_space_shape in E as (_ & Hw & E). apply IH. lia.
Qed.

(** X19.  The token the guarded middleware stores is never empty, never
    starts with white space, and is what the header ends with. *)
Theorem stored_token_shape (header token : string) :
  bearer_token (Some header) = Some token ->
  token <> ""
  /\ leading_space token = None
  /\ exists before, header = before ++ token.
Proof.
  intros H. pose proof (bearer_token_nonempty _ _ H) as Hne.
  apply String.eqb_neq in Hne. split; [assumption|].
  unfold bearer_token in H.
  destruct (strip_prefix_ci "Bearer" header) as [rest|] eqn:Hp; [|discriminate].
  destruct (leading_space rest); [|discriminate].
  destruct (String.eqb (skip_space rest) ""); [discriminate|].
  inversion H; subst. split.
  - apply skip_space_fuel_done. lia.
  - destruct (strip_prefix_ci_suffix _ _ _ Hp) as (p' & ->).
    destruct (skip_space_fuel_suffix (String.length rest) rest) as (w & Hw).
    exists (p' ++ w). rewrite string_app_assoc. unfold skip_space. now rewrite <- Hw.
Qed.

(** X20.  On a header that carries a bearer token the middleware of the
    enhanced server stores the same token as the guarded one; and it
    empties the slot only when the header is absent or empty. *)
Theorem enhanced_agrees_on_bearer_headers
        (authHeader : option string) (previous : Enhanced.TokenSlot) :
  (forall token,
      bearer_token authHeader = Some token ->
      Enhanced.verifyToken authHeader previous = Some token)
  /\ (Enhanced.verifyToken authHeader previous = None
      <-> authHeader = None \/ authHeader = Some "").
Proof.
  split.
  - intros token H. unfold bearer_token in H. unfold Enhanced.verifyToken.
    destruct authHeader as [h|]; [|discriminate].
    destruct (String.eqb h "") eqn:He.
    { apply String.eqb_eq in He; subst. discriminate H. }
    cbn [negb]. unfold strip_bearer.
    destruct (strip_prefix_ci "Bearer" h); [|discriminate].
    destruct (leading_space s); [|discriminate].
    destruct (String.eqb (skip_space s) ""); [discriminate|]. exact H.
  - unfold Enhanced.verifyToken. destruct authHeader as [h|].
    + destruct (String.eqb h "") eqn:He; cbn [negb].
      * apply String.eqb_eq in He; subst. split; auto.
      * apply String.eqb_neq in He. split; [discriminate|].
        intros [H|H]; [discriminate | inversion H; contradiction].
    + split; auto.
Qed.

Lemma stored_token_shape_run :
  bearer_token (Some "bearer   abc.def") = Some "abc.def"
  /\ leading_space "abc.def" = None.
Proof.
  split; [reflexivity|].
  apply (stored_token_shape "bearer   abc.def" "abc.def"). reflexivity.
Defined.

Lemma enhanced_agrees_on_bearer_headers_run :
  Enhanced.verifyToken (Some "Bearer abc.def") (Some "old") = Some "abc.def".
Proof.
  apply (proj1 (enhanced_agrees_on_bearer_headers (Some "Bearer abc.def") (Some "old"))).
  reflexivity.
Defined.

(** ** src/profile-server.ts *)

Section ProfileServerFacts.
Context {RT : Runtime}.
Variable generateProfileHTML : ProfileData -> string.

(** X21.  In src/profile-server.ts every failure of the two handlers
    leaves as InternalError: the handlers' own [catch] also catches the
    MethodNotFound of an unknown tool and the InvalidParams of an unknown
    resource, and wraps them. *)
Theorem profile_server_reports_internal_errors_only (p : json) :
  p <> JNull ->
  match ProfileServer.callTool generateProfileHTML (Some p) with
  | Normal _ => is_string (get_prop p "name") "get_profile" = true
  | Throw (McpError c _) => c = InternalError
  | Throw (JsError _ _) => False
  end
  /\ match ProfileServer.readResource generateProfileHTML (Some p) with
     | Normal _ => True
     | Throw (McpError c _) => c = InternalError
     | Throw (JsError _ _) => False
     end
  /\ (forall n,
        get_prop p "name" = Some (JString n) ->
        n <> "get_profile" ->
        ProfileServer.callTool generateProfileHTML (Some p)
        = Throw (McpError InternalError
                   ("Failed to execute tool: "
                      ++ error_message (McpError MethodNotFound ("Unknown tool: " ++ n))))).
Proof.
  intros Hp.
  assert (Hd : forall prop, destructure prop "request.params" (Some p) = Normal p)
    by (intros; destruct p; try reflexivity; congruence).
  unfold ProfileServer.callTool, ProfileServer.readResource. rewrite !Hd. cbn [bind].
  repeat split.
  - destruct (is_string (get_prop p "name") "get_profile"); cbn [try_catch].
    + destruct (to_string _); cbn; auto.
    + destruct (to_string _); cbn; auto.
  - destruct (is_string (get_prop p "uri") "profile://data"); cbn [try_catch]; auto.
    destruct (is_string (get_prop p "uri") "profile://html"); cbn [try_catch]; auto.
    destruct (to_string _); cbn; auto.
  - intros n Hn Hne. apply String.eqb_neq in Hne. rewrite Hn.
    cbn [is_string]. now rewrite Hne.
Qed.

(** X22.  The get_profile tool of src/profile-server.ts never misses:
    whatever id is asked for, known or not, it returns the mock record with
    that id ("default" when the id is absent or empty) as a text block and
    an HTML resource block. *)
Theorem profile_server_serves_any_id (id : option string) :
  ProfileServer.callTool generateProfileHTML (call_params "get_profile" (profile_args id))
  = Normal [TextBlock (ProfileServer.fetched
                         (ProfileServer.fetchProfileFromAWS (looked_up "default" id)));
            ResourceBlock "profile://html" "text/html"
              (generateProfileHTML
                 (ProfileServer.fetchProfileFromAWS (looked_up "default" id)))]
  /\ profile_id (ProfileServer.fetchProfileFromAWS (looked_up "default" id))
     = looked_up "default" id.
Proof.
  split; [|reflexivity].
  destruct (call_params_fields "get_profile" (profile_args id))
    as (p & -> & Hd & _ & Hname & Hargs).
  unfold ProfileServer.callTool. rewrite Hd. cbn [bind].
  rewrite Hname, Hargs. cbn [is_string String.eqb Ascii.eqb Bool.eqb].
  destruct (js_or_looked_up "default" id) as [-> _]. reflexivity.
Qed.
End ProfileServerFacts.

Lemma profile_server_reports_internal_errors_only_run :
  JObject [("name", JString "calculate")] <> JNull
  /\ @ProfileServer.callTool Reference.runtime sample_html
       (Some (JObject [("name", JString "calculate")]))
     = Throw (McpError InternalError
                "Failed to execute tool: MCP error -32601: Unknown tool: calculate").
Proof.
  split; [discriminate|].
  apply (@profile_server_reports_internal_errors_only Reference.runtime sample_html
           (JObject [("name", JString "calculate")])).
  - discriminate.
  - reflexivity.
  - discriminate.
Defined.

(** ** The tool get-user-profile *)

Section UserProfile.
Context {RT : Runtime}.

(** X23.  The tool get-user-profile sends nothing for a request that
    carried no bearer token: after the middleware it throws
    "Authentication required" whatever [fetch] would do.  With a token it
    makes one call, to the profile endpoint, with the header
    [Authorization: Bearer] and that token: nothing else of [fetch]
    matters. *)
Theorem profile_request_uses_the_stored_token
        (authHeader : option string) (st : Carousel.Tokens) :
  (bearer_token authHeader = None ->
   forall fetch,
     Carousel.get_user_profile fetch (Carousel.verifyToken authHeader st)
     = Throw authentication_required)
  /\ (forall token fetch fetch',
        bearer_token authHeader = Some token ->
        fetch Carousel.profile_endpoint ("Bearer " ++ token)
        = fetch' Carousel.profile_endpoint ("Bearer " ++ token) ->
        Carousel.get_user_profile fetch (Carousel.verifyToken authHeader st)
        = Carousel.get_user_profile fetch' (Carousel.verifyToken authHeader st)).
Proof.
  pose proof (require_after_verifyToken authHeader st) as Hreq.
  split.
  - intros Hnone fetch. unfold Carousel.get_user_profile.
    now rewrite Hreq, Hnone.
  - intros token fetch fetch' Hsome Hcall. unfold Carousel.get_user_profile.
    rewrite Hreq, Hsome. cbn [bind]. unfold Carousel.request_profile.
    now rewrite Hcall.
Qed.

(** X24.  How the tool get-user-profile fails once it holds a token: a
    call that is aborted by the timer is reported as "Request timed out",
    a response whose status is not ok as "API request failed: " and the
    status; any other error is thrown again as it is. *)
Theorem profile_request_failures
        (fetch : string -> string -> Completion Carousel.FetchResponse)
        (st : Carousel.Tokens) (token : string) :
  Carousel.requireUserToken st = Normal token ->
  (forall error,
      fetch Carousel.profile_endpoint ("Bearer " ++ token) = Throw error ->
      Carousel.get_user_profile fetch st = Throw (profile_failure error))
  /\ (forall response body,
        fetch Carousel.profile_endpoint ("Bearer " ++ token) = Normal response ->
        Carousel.response_ok response = false ->
        Carousel.response_text response = Normal body ->
        Carousel.get_user_profile fetch st
        = Throw (PlainError ("API request failed: "
                               ++ Z_to_string (Carousel.response_status response)))).
Proof.
  intros Hreq. unfold Carousel.get_user_profile. rewrite Hreq. cbn [bind].
  unfold Carousel.request_profile. split.
  - intros error ->. cbn [bind try_catch]. unfold profile_failure.
    now destruct (Carousel.is_abort error).
  - intros response body -> Hok Hbody. cbn [bind]. rewrite Hok. cbn [negb].
    now rewrite Hbody.
Qed.

(** X25.  The tool get-user-profile builds a result from an ok response
    only, and hands the body over unchanged: whenever it returns, [fetch]
    answered with an ok response whose JSON body is the [userData] of the
    structured content. *)
Theorem profile_result_comes_from_an_ok_response
        (fetch : string -> string -> Completion Carousel.FetchResponse)
        (st : Carousel.Tokens) (output : Carousel.ToolOutput) :
  Carousel.get_user_profile fetch st = Normal output ->
  exists token response data,
    Carousel.requireUserToken st = Normal token
    /\ fetch Carousel.profile_endpoint ("Bearer " ++ token) = Normal response
    /\ Carousel.response_ok response = true
    /\ Carousel.response_json response = Normal data
    /\ Carousel.structuredContent output = JObject [("userData", data)].
Proof.
  unfold Carousel.get_user_profile.
  destruct (Carousel.requireUserToken st) as [token|] eqn:Hreq; [|discriminate].
  cbn [bind]. unfold Carousel.request_profile.
  destruct (fetch Carousel.profile_endpoint ("Bearer " ++ token)) as [response|e] eqn:Hf;
    cbn [bind try_catch]; [|destruct (Carousel.is_abort e); discriminate].
  destruct (Carousel.response_ok response) eqn:Hok; cbn [negb].
  - destruct (Carousel.response_json response) as [data|e] eqn:Hj; cbn [bind try_catch];
      [|destruct (Carousel.is_abort e); discriminate].
    destruct (Carousel.read_member data "message") as [m|e]; cbn [bind try_catch];
      [|destruct (Carousel.is_abort e); discriminate].
    destruct (to_string m) as [sm|e]; cbn [bind try_catch];
      [|destruct (Carousel.is_abort e); discriminate].
    destruct (Carousel.read_member data "timestamp") as [ts|e]; cbn [bind try_catch];
      [|destruct (Carousel.is_abort e); discriminate].
    destruct (to_string ts) as [sts|e]; cbn [bind try_catch];
      [|destruct (Carousel.is_abort e); discriminate].
    intros H; inversion H; subst. now exists token, response, data.
  - destruct (Carousel.response_text response) as [body|e]; cbn [bind try_catch];
      [|destruct (Carousel.is_abort e)]; discriminate.
Qed.
End UserProfile.

Lemma profile_request_uses_the_stored_token_run :
  bearer_token (Some "Basic dXNlcjpwYXNz") = None
  /\ @Carousel.get_user_profile Reference.runtime
       (fun _ _ => Normal (ok_response (JObject [("message", JString "hi")])))
       (Carousel.verifyToken (Some "Basic dXNlcjpwYXNz") signed_in)
     = Throw authentication_required.
Proof.
  split; [reflexivity|].
  apply (proj1 (@profile_request_uses_the_stored_token Reference.runtime
                  (Some "Basic dXNlcjpwYXNz") signed_in)).
  reflexivity.
Defined.

Lemma profile_request_failures_run :
  Carousel.requireUserToken signed_in = Normal "abc"
  /\ @Carousel.get_user_profile Reference.runtime
       (fun _ _ => Normal (refused_response 403)) signed_in
     = Throw (PlainError "API request failed: 403").
Proof.
  split; [reflexivity|].
  apply (proj2 (@profile_request_failures Reference.runtime
                  (fun _ _ => Normal (refused_response 403)) signed_in "abc" eq_refl)
           (refused_response 403) "Forbidden"); reflexivity.
Defined.

Lemma profile_result_comes_from_an_ok_response_run :
  exists token response data,
    Carousel.requireUserToken signed_in = Normal token
    /\ (fun (_ _ : string) =>
          Normal (ok_response (JObject [("message", JString "hi")])))
         Carousel.profile_endpoint ("Bearer " ++ token) = Normal response
    /\ Carousel.response_ok response = true
    /\ Carousel.response_json response = Normal data
    /\ Carousel.structuredContent
         {| Carousel.output_content := [TextBlock "Static data received: hi at undefined"];
            Carousel.structuredContent :=
              JObject [("userData", JObject [("message", JString "hi")])] |}
       = JObject [("userData", data)].
Proof.
  apply (@profile_result_comes_from_an_ok_response Reference.runtime
           (fun _ _ => Normal (ok_response (JObject [("message", JString "hi")])))
           signed_in).
  reflexivity.
Defined.

(** ** src/userAuthenticationService.ts *)

(** X26.  Each [require] of the token store succeeds exactly when the last
    value set in its slot is a non-empty string, and then returns it; a
    slot set to null or to the empty string makes it throw. *)
Theorem require_returns_the_last_value_set (v : option string) (st : AuthService.Store) :
  let expected message :=
    match v with
    | Some s => if String.eqb s "" then Throw (PlainError message) else Normal s
    | None => Throw (PlainError message)
    end in
  AuthService.requireAccessToken (AuthService.setAccessToken v st)
  = expected "Authentication required. Please log in via OAuth."
  /\ AuthService.requireLc3Jwt (AuthService.setLc3Jwt v st)
     = expected "LC3 JWT token not available."
  /\ AuthService.requireLc3Id (AuthService.setLc3Id v st)
     = expected "LC3 ID not available."
  /\ AuthService.requireBrand (AuthService.setBrand v st)
     = expected "Brand not available."
  /\ AuthService.requireEmailId (AuthService.setEmailId v st)
     = expected "Email ID not available."
  /\ AuthService.requireOfficialBrandName (AuthService.setOfficialBrandName v st)
     = expected "Official brand name not available.".
Proof.
  intros expected. unfold expected.
  repeat split; destruct v as [s|]; try reflexivity;
    cbv [AuthService.requireAccessToken AuthService.requireLc3Jwt
         AuthService.requireLc3Id AuthService.requireBrand AuthService.requireEmailId
         AuthService.requireOfficialBrandName AuthService.require_slot
         AuthService.setAccessToken AuthService.setLc3Jwt AuthService.setLc3Id
         AuthService.setBrand AuthService.setEmailId AuthService.setOfficialBrandName
         AuthService.userAccessToken AuthService.lc3Jwt AuthService.lc3Id
         AuthService.brand AuthService.emailId AuthService.officialBrandName
         option_map truthy];
    now destruct (String.eqb s "").
Qed.

(** X27.  The enrollment year can be read back whatever it is, but
    [requireSavingsCardEnrolledYear] throws for the year 0 (and for NaN) as
    it does for null: it succeeds exactly on a year that is truthy. *)
Theorem enrollment_year_zero_is_not_available (y : option JSNumber) (st : AuthService.Store) :
  AuthService.getSavingsCardEnrolledYear (AuthService.setSavingsCardEnrolledYear y st) = y
  /\ (forall n,
        AuthService.requireSavingsCardEnrolledYear
          (AuthService.setSavingsCardEnrolledYear y st) = Normal n
        <-> y = Some n /\ truthy (Some (JNumber n)) = true)
  /\ AuthService.requireSavingsCardEnrolledYear
       (AuthService.setSavingsCardEnrolledYear (Some (Finite 0)) st)
     = Throw (PlainError "Savings card enrollment year not available.").
Proof.
  split; [reflexivity|]. split; [|reflexivity].
  intros n. unfold AuthService.requireSavingsCardEnrolledYear.
  cbn [AuthService.savingsCardEnrolledYear AuthService.setSavingsCardEnrolledYear].
  destruct y as [m|]; cbn [option_map].
  - destruct (truthy (Some (JNumber m))) eqn:E.
    + split; [intros H; inversion H; subst; now split | intros [H _]; now inversion H].
    + split; [discriminate | intros [H Ht]; inversion H; subst; congruence].
  - split; [discriminate | intros [H _]; discriminate].
Qed.

Lemma split_on_cons sep s : exists l ls, split_on sep s = l :: ls.
Proof.
  induction s as [|c s (l & ls & IH)]; simpl.
  - now exists EmptyString, [].
  - destruct (Ascii.eqb c sep); [now eexists; eexists|].
    rewrite IH. now eexists; eexists.
Qed.

Lemma split_on_free sep s : free_of sep s = true -> split_on sep s = [s].
Proof.
  induction s as [|c s IH]; simpl; [reflexivity|].
  intros H; apply andb_true_iff in H as [Hc Hs].
  apply negb_true_iff in Hc. now rewrite Hc, IH.
Qed.

(** The separator separates: the pieces of [a.sep.b] are those of [a]
    followed by those of [b]. *)
Lemma split_on_app sep a b :
  split_on sep (a ++ String sep b) = (split_on sep a ++ split_on sep b)%list.
Proof.
  induction a as [|c a IH]; cbn [String.append split_on].
  - now rewrite Ascii.eqb_refl.
  - destruct (Ascii.eqb c sep); rewrite IH; [reflexivity|].
    now destruct (split_on_cons sep a) as (l & ls & ->).
Qed.

Lemma split_jwt header payload signature :
  free_of "." header = true ->
  free_of "." signature = true ->
  split_on "." (jwt header payload signature)
  = (header :: split_on "." payload ++ [signature])%list.
Proof.
  intros Hh Hs. unfold jwt.
  now rewrite !split_on_app, (split_on_free _ _ Hh), (split_on_free _ _ Hs).
Qed.

Lemma js_length_app a b : js_length (a ++ b) = (js_length a + js_length b)%nat.
Proof. induction a as [|c a IH]; simpl; [reflexivity|]. rewrite IH. lia. Qed.

Lemma js_length_padding n : js_length (padding n) = n.
Proof. induction n as [|n IH]; simpl; [reflexivity|]. now rewrite IH. Qed.

Section JwtFacts.
Context {RT : Runtime}.
Variable atob : string -> Completion string.

(** X28.  [extractPatientId] looks at the middle part of the token only:
    two tokens with the same payload give the same patient id whatever
    their header and signature are (nothing is verified), and a token that
    does not have exactly three parts gives null. *)
Theorem patient_id_depends_on_the_payload_only
        (header header' payload signature signature' : string) :
  free_of "." header = true ->
  free_of "." header' = true ->
  free_of "." signature = true ->
  free_of "." signature' = true ->
  AuthService.extractPatientId atob (jwt header payload signature)
  = AuthService.extractPatientId atob (jwt header' payload signature')
  /\ (free_of "." payload = false ->
      AuthService.extractPatientId atob (jwt header payload signature) = None).
Proof.
  intros Hh Hh' Hs Hs'.
  unfold AuthService.extractPatientId, AuthService.decode_patient.
  rewrite !split_jwt by assumption.
  destruct (split_on_cons "." payload) as (l & ls & E). rewrite E.
  cbn [List.length app nth]. rewrite !length_app. cbn [List.length].
  split; [reflexivity|].
  intros Hp. destruct ls as [|l2 ls].
  - exfalso. clear - E Hp.
    revert l E Hp. induction payload as [|c payload IH]; intros l E Hp; [discriminate|].
    simpl in E, Hp. destruct (split_on_cons "." payload) as (x & xs & Ex).
    rewrite Ex in E.
    destruct (Ascii.eqb c "."); [discriminate E|cbn [negb andb] in Hp].
    destruct xs; [|discriminate E]. now apply (IH x).
  - match goal with
    | |- context [(?n =? 3)%nat] =>
        destruct (Nat.eqb_spec n 3) as [Hn|Hn];
        [cbn [List.length] in Hn; lia | reflexivity]
    end.
Qed.

(** X29.  The padding [extractPatientId] adds before decoding always
    brings the payload to a length that is a multiple of four, by at most
    three [=]. *)
Theorem padded_payload_length (payload : string) :
  let k := ((4 - js_length payload mod 4) mod 4)%nat in
  (js_length (payload ++ padding k) mod 4 = 0)%nat /\ (k <= 3)%nat.
Proof.
  intros k. unfold k. rewrite js_length_app, js_length_padding.
  rewrite Nat.Div0.add_mod.
  pose proof (Nat.mod_upper_bound (js_length payload) 4 ltac:(discriminate)) as Hb.
  remember (js_length payload mod 4)%nat as r eqn:Hr. clear Hr.
  destruct r as [|[|[|[|r]]]]; try lia; split; try reflexivity; cbn; lia.
Qed.
End JwtFacts.

Lemma require_returns_the_last_value_set_run :
  AuthService.requireBrand (AuthService.setBrand (Some "taltz") AuthService.initial)
  = Normal "taltz"
  /\ AuthService.requireBrand (AuthService.setBrand (Some "") AuthService.initial)
     = Throw (PlainError "Brand not available.").
Proof.
  split.
  - apply (require_returns_the_last_value_set (Some "taltz") AuthService.initial).
  - apply (require_returns_the_last_value_set (Some "") AuthService.initial).
Defined.

Lemma enrollment_year_zero_is_not_available_run :
  AuthService.requireSavingsCardEnrolledYear
    (AuthService.setSavingsCardEnrolledYear (Some (Finite (inject_Z 2024)))
       AuthService.initial)
  = Normal (Finite (inject_Z 2024)).
Proof.
  apply (proj1 (proj2 (enrollment_year_zero_is_not_available
                         (Some (Finite (inject_Z 2024))) AuthService.initial))
           (Finite (inject_Z 2024))).
  split; reflexivity.
Defined.

Lemma patient_id_depends_on_the_payload_only_run :
  @AuthService.extractPatientId Reference.runtime ReferenceBase64.atob
    (jwt "header" "eyJkYXRhU2NvcGVzIjp7InBhdGllbnQiOiJwMSJ9fQ" "signature")
  = @AuthService.extractPatientId Reference.runtime ReferenceBase64.atob
      (jwt "" "eyJkYXRhU2NvcGVzIjp7InBhdGllbnQiOiJwMSJ9fQ" "forged")
  /\ @AuthService.extractPatientId Reference.runtime ReferenceBase64.atob
       (jwt "" "eyJkYXRhU2NvcGVzIjp7InBhdGllbnQiOiJwMSJ9fQ" "forged")
     = Some (JString "p1").
Proof.
  split; [|reflexivity].
  apply (@patient_id_depends_on_the_payload_only Reference.runtime ReferenceBase64.atob
           "header" "" "eyJkYXRhU2NvcGVzIjp7InBhdGllbnQiOiJwMSJ9fQ"
           "signature" "forged"); reflexivity.
Defined.

(** ** The end of the stream *)

Section Shutdown.
Context {RT : Runtime}.
Variable handleRequest : json -> Completion MCPResponse.

Lemma run_exited status events :
  Stdio.run handleRequest (Stdio.Exited status) events = (Stdio.Exited status, []).
Proof.
  induction events as [|e events IH]; [reflexivity|].
  cbn [Stdio.run Stdio.step]. now rewrite IH.
Qed.

Lemma run_running_or_exited buffer events :
  (exists buffer', fst (Stdio.run handleRequest (Stdio.Running buffer) events)
                   = Stdio.Running buffer')
  \/ fst (Stdio.run handleRequest (Stdio.Running buffer) events) = Stdio.Exited 0.
Proof.
  revert buffer; induction events as [|e events IH]; intros buffer.
  - left. now exists buffer.
  - cbn [Stdio.run]. destruct e; cbn [Stdio.step].
    + destruct (Stdio.on_data handleRequest buffer chunk) as [b' w].
      destruct (IH b') as [(b'' & H)|H];
        destruct (Stdio.run handleRequest (Stdio.Running b') events) as [p w'];
        cbn [fst] in *; [left; now exists b'' | now right].
    + right. now rewrite run_exited.
    + right. now rewrite run_exited.
Qed.

(** X30.  Once the input has ended or the process was interrupted, nothing
    more is read or written: the events that follow change neither the
    output nor the exit status, which is 0 in both cases. *)
Theorem nothing_is_processed_after_exit
        (before later : list Stdio.Event) (stop : Stdio.Event) :
  stop = Stdio.StdinEnd \/ stop = Stdio.SIGINT ->
  Stdio.run handleRequest (Stdio.Running "") (before ++ stop :: later)%list
  = Stdio.run handleRequest (Stdio.Running "") (before ++ [stop])%list
  /\ fst (Stdio.run handleRequest (Stdio.Running "") (before ++ stop :: later)%list)
     = Stdio.Exited 0.
Proof.
  intros Hstop.
  assert (H : forall events,
             Stdio.run handleRequest (Stdio.Running "") (before ++ stop :: events)%list
             = (Stdio.Exited 0,
                snd (Stdio.run handleRequest (Stdio.Running "") before))).
  { intros events. rewrite run_app.
    destruct (run_running_or_exited "" before) as [(b & Hb)|Hb];
      destruct (Stdio.run handleRequest (Stdio.Running "") before) as [p w];
      cbn [fst snd] in *; subst p.
    - cbn [Stdio.run]. destruct Hstop as [-> | ->]; cbn [Stdio.step];
        rewrite run_exited; now rewrite app_nil_r.
    - rewrite run_exited. now rewrite app_nil_r. }
  split; [now rewrite !H | now rewrite H].
Qed.
End Shutdown.

Lemma nothing_is_processed_after_exit_run :
  @Stdio.run Reference.runtime (@Simple.handleRequest Reference.runtime)
    (Stdio.Running "")
    ([Stdio.StdinData (unlines [malformed_line])]
       ++ Stdio.SIGINT :: [Stdio.StdinData (unlines [initialize_line])])%list
  = @Stdio.run Reference.runtime (@Simple.handleRequest Reference.runtime)
      (Stdio.Running "")
      ([Stdio.StdinData (unlines [malformed_line])] ++ [Stdio.SIGINT])%list.
Proof.
  apply (@nothing_is_processed_after_exit Reference.runtime
           (@Simple.handleRequest Reference.runtime)
           [Stdio.StdinData (unlines [malformed_line])]
           [Stdio.StdinData (unlines [initialize_line])] Stdio.SIGINT).
  now right.
Defined.
